(** * The PDF conversion orchestrator (marker/converters/pdf.py, main.py)

    A shallow embedding of [renderer2cls], [PdfConverter.__init__],
    [filepath_to_str], [build_document], [render], [render_document] and
    [__call__], and of the cleanup clause of [parse_pdf], followed by the
    properties of the orchestrator that the specification states.

    Python objects are modelled by a small value type, exceptions by
    their class name and message, dictionaries by [gmap], and the code
    that mutates shared objects (the caller's config dictionary, the
    artifact dictionary, the file system) by explicit state passing. *)

From Stdlib Require Import ZArith String Ascii List Bool Lia.
From stdpp Require Import base option gmap strings list fin_maps pretty.

Local Open Scope string_scope.
Set Warnings "-register-all".

(** ** Python values and exceptions *)

Inductive pyval : Type :=
| PyNone
| PyBool (b : bool)
| PyInt (z : Z)
| PyStr (s : string)
| PyList (l : list pyval)
| PyCls (qualname : string)     (* a class object *)
| PyObj (cls : string).         (* an instance of a class *)

(** An exception: the name of its class and its message.  A built-in
    class goes by its bare name ([TypeError], [KeyboardInterrupt]); a
    class of a library goes by its qualified name
    ([requests.exceptions.ConnectionError]), so that it is not taken for
    the built-in class of the same name. *)
Record exn : Type := mk_exn { exn_class : string; exn_msg : string }.

Inductive result (A : Type) : Type :=
| Ok (a : A)
| Raise (e : exn).
Arguments Ok {A} a.
Arguments Raise {A} e.

Definition bindR {A B} (c : result A) (k : A → result B) : result B :=
  match c with
  | Ok a => k a
  | Raise e => Raise e
  end.

Notation "'let*' x ':=' c 'in' k" := (bindR c (fun x => k))
  (at level 10, x name, c at level 100, k at level 200).

Fixpoint mapR {A B} (f : A → result B) (l : list A) : result (list B) :=
  match l with
  | [] => Ok []
  | x :: l' => let* y := f x in let* ys := mapR f l' in Ok (y :: ys)
  end.

(** Truthiness, as [if v:] tests it. *)
Definition truthy (v : pyval) : bool :=
  match v with
  | PyNone => false
  | PyBool b => b
  | PyInt z => negb (Z.eqb z 0)
  | PyStr s => negb (String.eqb s "")
  | PyList l => match l with [] => false | _ => true end
  | PyCls _ | PyObj _ => true
  end.

(** [v == s] for a string literal [s]. *)
Definition py_eq_str (v : pyval) (s : string) : bool :=
  match v with
  | PyStr t => String.eqb t s
  | _ => false
  end.

Definition type_name (v : pyval) : string :=
  match v with
  | PyNone => "NoneType"
  | PyBool _ => "bool"
  | PyInt _ => "int"
  | PyStr _ => "str"
  | PyList _ => "list"
  | PyCls _ => "type"
  | PyObj c => c
  end.

Definition UnboundLocalError (var : string) : exn :=
  mk_exn "UnboundLocalError"
    ("cannot access local variable '" ++ var ++
     "' where it is not associated with a value").
Definition TypeError (msg : string) : exn := mk_exn "TypeError" msg.
Definition AttributeError (msg : string) : exn := mk_exn "AttributeError" msg.
Definition ValueError (msg : string) : exn := mk_exn "ValueError" msg.
Definition RecursionError : exn :=
  mk_exn "RecursionError" "maximum recursion depth exceeded".

(** Reading a local variable: a local that has not been assigned yet
    raises [UnboundLocalError]. *)
Definition load_local (var : string) (slot : option pyval) : result pyval :=
  match slot with
  | Some v => Ok v
  | None => Raise (UnboundLocalError var)
  end.

(** ** String helpers used by the selector parser *)

Fixpoint has_char (c : ascii) (s : string) : bool :=
  match s with
  | EmptyString => false
  | String d s' => Ascii.eqb c d || has_char c s'
  end.

(** [s.split(c)]: the pieces between the occurrences of [c]. *)
Fixpoint split_on (c : ascii) (s : string) : list string :=
  match s with
  | EmptyString => [EmptyString]
  | String d s' =>
      if Ascii.eqb c d then EmptyString :: split_on c s'
      else match split_on c s' with
           | [] => [String d EmptyString]
           | p :: ps => String d p :: ps
           end
  end.

Definition is_space (c : ascii) : bool :=
  let n := nat_of_ascii c in
  (Nat.eqb n 32 || (Nat.leb 9 n && Nat.leb n 13) ||
   (Nat.leb 28 n && Nat.leb n 31))%bool.

Fixpoint lstrip (s : string) : string :=
  match s with
  | EmptyString => EmptyString
  | String c s' => if is_space c then lstrip s' else s
  end.

Fixpoint rstrip (s : string) : string :=
  match s with
  | EmptyString => EmptyString
  | String c s' =>
      match rstrip s' with
      | EmptyString => if is_space c then EmptyString else String c EmptyString
      | t => String c t
      end
  end.

Definition strip (s : string) : string := rstrip (lstrip s).

(** ['+' in v] *)
Definition py_contains_plus (v : pyval) : result bool :=
  match v with
  | PyStr s => Ok (has_char "+"%char s)
  | PyList l => Ok (existsb (fun x => py_eq_str x "+") l)
  | _ => Raise (TypeError ("argument of type '" ++ type_name v ++
                           "' is not iterable"))
  end.

(** [v.split('+')] *)
Definition py_split_plus (v : pyval) : result (list string) :=
  match v with
  | PyStr s => Ok (split_on "+"%char s)
  | _ => Raise (AttributeError ("'" ++ type_name v ++
                                "' object has no attribute 'split'"))
  end.

(** ** renderer2cls (pdf.py, lines 61-73)

    The function has one parameter, [name], and assigns the names
    [renderer] and [renderers] in its body, which makes both of them
    local variables of the function; neither is bound on entry.  The body
    has no [return] statement, so a call that completes returns [None]. *)

Record r2c_frame : Type := mk_frame {
  f_name : pyval;
  f_renderer : option pyval;
  f_renderers : option pyval
}.

Definition entry_frame (name : pyval) : r2c_frame :=
  mk_frame name None None.

Definition set_renderer (F : r2c_frame) (v : pyval) : r2c_frame :=
  mk_frame (f_name F) (Some v) (f_renderers F).

Definition set_renderers (F : r2c_frame) (v : pyval) : r2c_frame :=
  mk_frame (f_name F) (f_renderer F) (Some v).

(** The statements of the body, run from a frame [F]; [self] is the
    function itself, for the recursive call of line 71. *)
Definition renderer2cls_body (self : pyval → result pyval) (F : r2c_frame)
  : result r2c_frame :=
  let* r := load_local "renderer" (f_renderer F) in
  if py_eq_str r "pageMarkdown" then
    Ok (set_renderer F (PyStr "marker.renderers.page_markdown.PageMarkdownRenderer"))
  else
  let* r := load_local "renderer" (f_renderer F) in
  if py_eq_str r "markdown" then
    Ok (set_renderer F (PyStr "marker.renderers.markdown.MarkdownRenderer"))
  else
  let* r := load_local "renderer" (f_renderer F) in
  if py_eq_str r "chunks" then
    Ok (set_renderer F (PyStr "marker.renderers.chunk.ChunkRenderer"))
  else
  let* r := load_local "renderer" (f_renderer F) in
  let* has_plus := py_contains_plus r in
  if (has_plus : bool) then
    let* r := load_local "renderer" (f_renderer F) in
    let* parts := py_split_plus r in
    let parts := map strip parts in
    let* rs := mapR self (map PyStr parts) in
    Ok (set_renderers F (PyList rs))
  else
    Ok (set_renderer F PyNone).

Fixpoint renderer2cls (fuel : nat) (name : pyval) : result pyval :=
  match fuel with
  | O => Raise RecursionError
  | S fuel' =>
      let* _ := renderer2cls_body (renderer2cls fuel') (entry_frame name) in
      Ok PyNone
  end.

(** ** Documents (marker.schema, as far as the orchestrator reads it) *)

Record BlockId : Type := mk_block_id {
  bid_page : Z;
  bid_type : string;
  bid_num : Z
}.

Record Block : Type := mk_block {
  block_id : BlockId;
  block_text : string
}.

Record Page : Type := mk_page {
  page_id : Z;
  ignore_for_output : bool;
  structure : list BlockId;
  children : list Block
}.

Record Document : Type := mk_document { pages : list Page }.

(** What calling a renderer-like object on a document gives back: an
    iterable of three items of which the second is a dictionary (the
    [(payload, images, metadata)] triple of a renderer), or another
    value.  The values of [pyval] have no dictionaries among them, so a
    list or a string of exactly three items, which the unpacking of
    [render] would accept with a second item that is not a dictionary,
    is outside what [ROther] stands for. *)
Inductive rendered : Type :=
| RTriple (payload : pyval) (images : gmap string pyval) (metadata : pyval)
| ROther (v : pyval).

(** The values stored in the dictionary that [render_document] builds. *)
Inductive out_value : Type :=
| OutPageStructure (m : gmap Z (list string))
| OutPayload (v : pyval)
| OutImages (m : gmap string pyval)
| OutMetadata (v : pyval).

(** ** The file system seen through [os] and [tempfile] *)

Record filesystem : Type := mk_fs {
  fs_files : gmap string (list Byte.byte);
  (* paths whose removal the operating system refuses *)
  fs_undeletable : gset string
}.

Definition os_path_exists (fs : filesystem) (p : string) : bool :=
  bool_decide (is_Some (fs_files fs !! p)).

Definition os_unlink (fs : filesystem) (p : string) : result filesystem :=
  match fs_files fs !! p with
  | None => Raise (mk_exn "FileNotFoundError" p)
  | Some _ =>
      if bool_decide (p ∈ fs_undeletable fs)
      then Raise (mk_exn "PermissionError" p)
      else Ok (mk_fs (delete p (fs_files fs)) (fs_undeletable fs))
  end.

Definition write_file (fs : filesystem) (p : string) (data : list Byte.byte)
  : filesystem :=
  mk_fs (<[p := data]> (fs_files fs)) (fs_undeletable fs).


(** The exception classes that [except OSError] catches. *)
Definition is_OSError (e : exn) : bool :=
  bool_decide (exn_class e ∈
    ["OSError"; "FileNotFoundError"; "PermissionError"; "FileExistsError"]).

(** The argument of the converter: a path, an in-memory buffer, or any
    other value.  A string can also come as [OtherInput (PyStr s)]; the
    facade tests the type of its argument and treats it as the path
    [s]. *)
Inductive file_input : Type :=
| FilePath (path : string)
| BytesIO (data : list Byte.byte)
| OtherInput (v : pyval).

(** ** The state the orchestrator runs against *)

(** Calls the orchestrator makes, recorded in order (ghost state). *)
Inductive event : Type :=
| EvBagWrite (key : string) (v : pyval)
| EvResolve (c : pyval) (cfg : option (gmap string pyval))
| EvInitProcessors (l : list pyval) (cfg : option (gmap string pyval))
| EvRegisterBlock (block_type cls : string)
| EvProvider (filepath : string) (cfg : option (gmap string pyval))
| EvDocumentBuilder (cfg : option (gmap string pyval)).

Record world : Type := mk_world {
  (* the caller's config dictionary ([None] when config=None is passed);
     self.config is this same object *)
  w_config : option (gmap string pyval);
  (* the caller's artifact_dict; self.artifact_dict is this same object *)
  w_bag : gmap string pyval;
  w_fs : filesystem;
  (* self.page_count *)
  w_page_count : option nat;
  w_log : list event
}.

Definition M (A : Type) : Type := world → result A * world.

Definition ret {A} (a : A) : M A := fun w => (Ok a, w).
Definition raise {A} (e : exn) : M A := fun w => (Raise e, w).
Definition bindM {A B} (c : M A) (k : A → M B) : M B :=
  fun w => match c w with
           | (Ok a, w') => k a w'
           | (Raise e, w') => (Raise e, w')
           end.
Definition liftR {A} (r : result A) : M A := fun w => (r, w).
Definition get_world : M world := fun w => (Ok w, w).

Notation "'let!' x ':=' c 'in' k" := (bindM c (fun x => k))
  (at level 10, x name, c at level 100, k at level 200).

Definition log_event (ev : event) : M unit :=
  fun w => (Ok tt, mk_world (w_config w) (w_bag w) (w_fs w) (w_page_count w)
                            (w_log w ++ [ev])).


Definition set_fs (fs : filesystem) : M unit :=
  fun w => (Ok tt, mk_world (w_config w) (w_bag w) fs (w_page_count w)
                            (w_log w)).

Definition set_page_count (n : option nat) : M unit :=
  fun w => (Ok tt, mk_world (w_config w) (w_bag w) (w_fs w) n (w_log w)).

(** [artifact_dict[key] = v] *)
Definition bag_write (key : string) (v : pyval) : M unit :=
  fun w => (Ok tt, mk_world (w_config w) (<[key := v]> (w_bag w)) (w_fs w)
                            (w_page_count w) (w_log w ++ [EvBagWrite key v])).

(** [config.get(key, default)] *)
Definition config_get (key : string) (dflt : pyval) : M pyval :=
  fun w => match w_config w with
           | None => (Raise (AttributeError
                        "'NoneType' object has no attribute 'get'"), w)
           | Some c => (Ok (default dflt (c !! key)), w)
           end.

(** [key in config] *)
Definition config_contains (key : string) : M bool :=
  fun w => match w_config w with
           | None => (Raise (TypeError
                        "argument of type 'NoneType' is not iterable"), w)
           | Some c => (Ok (bool_decide (is_Some (c !! key))), w)
           end.

(** [config.pop(key)] *)
Definition config_pop (key : string) : M pyval :=
  fun w => match w_config w with
           | None => (Raise (AttributeError
                        "'NoneType' object has no attribute 'pop'"), w)
           | Some c =>
               match c !! key with
               | None => (Raise (mk_exn "KeyError" key), w)
               | Some v =>
                   (Ok v, mk_world (Some (delete key c)) (w_bag w) (w_fs w)
                                   (w_page_count w) (w_log w))
               end
           end.

(** ** The converter *)

(** The attributes of a converter instance that the orchestrator sets and
    reads; [self.config] and [self.artifact_dict] live in the [world]. *)
Record PdfConverter : Type := mk_converter {
  ignore_blocks : list string;
  renderer : pyval;
  llm_service : pyval;
  processor_list : list pyval;
  layout_builder_class : pyval
}.

Definition default_processors : list pyval :=
  map PyCls
    ["OrderProcessor"; "BlockRelabelProcessor"; "LineMergeProcessor";
     "BlockquoteProcessor"; "CodeProcessor"; "DocumentTOCProcessor";
     "EquationProcessor"; "FootnoteProcessor"; "IgnoreTextProcessor";
     "LineNumbersProcessor"; "ListProcessor"; "PageHeaderProcessor";
     "SectionHeaderProcessor"; "TableProcessor"; "LLMTableProcessor";
     "LLMTableMergeProcessor"; "LLMFormProcessor"; "TextProcessor";
     "LLMComplexRegionProcessor"; "LLMImageDescriptionProcessor";
     "LLMEquationProcessor"; "LLMHandwritingProcessor";
     "LLMMathBlockProcessor"; "LLMSectionHeaderProcessor";
     "LLMPageCorrectionProcessor"; "ReferenceProcessor";
     "BlankPageProcessor"; "DebugProcessor"].

Definition default_llm_service : pyval := PyCls "GoogleGeminiService".

Definition default_renderers : list pyval :=
  [PyCls "PageMarkdownRenderer"; PyCls "ChunkRenderer"].

(** The processors of the default chain that call the LLM service are
    the classes imported from [marker.processors.llm]; their names start
    with [LLM]. *)
Definition is_llm_processor (p : pyval) : bool :=
  match p with
  | PyCls n | PyObj n => String.prefix "LLM" n
  | _ => false
  end.

(** ** Vocabulary of the specification *)

(** The renderer short names the selector syntax knows. *)
Definition recognised_token (tok : string) : bool :=
  String.eqb tok "pageMarkdown" || String.eqb tok "markdown" ||
  String.eqb tok "chunks".

(** The tokens of a selector: its [+]-separated pieces, stripped. *)
Definition selector_tokens (sel : string) : list string :=
  map strip (split_on "+"%char sel).

(** [t in s] for strings. *)
Fixpoint contains (t s : string) : bool :=
  String.prefix t s ||
  match s with
  | EmptyString => false
  | String _ s' => contains t s'
  end.

Definition is_configuration_error {A} (r : result A) : bool :=
  match r with
  | Raise e => String.eqb (exn_class e) "ConfigurationError"
  | Ok _ => false
  end.

(** The outcome the specification asks for on an unknown token: a
    [ConfigurationError] whose message names the token. *)
Definition rejected_naming {A} (r : result A) (tok : string) : Prop :=
  ∃ e, r = Raise e ∧ exn_class e = "ConfigurationError" ∧
       contains tok (exn_msg e) = true.

(** ** Frames: what a run of the orchestrator leaves alone *)

Definition is_bag_write (ev : event) : bool :=
  match ev with
  | EvBagWrite _ _ => true
  | _ => false
  end.

(** The configuration object an event records as handed to a stage. *)
Definition event_config (ev : event)
  : option (option (gmap string pyval)) :=
  match ev with
  | EvResolve _ c | EvInitProcessors _ c | EvProvider _ c
  | EvDocumentBuilder c => Some c
  | EvBagWrite _ _ | EvRegisterBlock _ _ => None
  end.

(** An event that writes nothing to the artifact dictionary and hands on
    the configuration object [cfg], if any. *)
Definition quiet_event (cfg : option (gmap string pyval)) (ev : event)
  : Prop :=
  is_bag_write ev = false ∧ ∀ c, event_config ev = Some c → c = cfg.

(** [frame fs_too w w']: from [w] to [w'] the config dictionary and the
    artifact dictionary are unchanged, the log has grown by quiet events
    only and, when [fs_too] is set, the file system is unchanged too. *)
Definition frame (fs_too : bool) (w w' : world) : Prop :=
  w_config w' = w_config w ∧
  w_bag w' = w_bag w ∧
  (fs_too = true → w_fs w' = w_fs w) ∧
  ∃ evs, w_log w' = (w_log w ++ evs)%list ∧
         Forall (quiet_event (w_config w)) evs.

(** ** The render result, as the renderers' outputs determine it *)

Definition render_output : Type :=
  (string * pyval * gmap string pyval * pyval)%type.

(** What lines 256-257 do to [out_render] for one renderer's output. *)
Definition store_output (out_render : gmap string out_value)
    (r : render_output) : gmap string out_value :=
  match r with
  | (key, rendered, images, _) =>
      <["images" := OutImages images]> (<[key := OutPayload rendered]> out_render)
  end.

Definition output_metadata (r : render_output) : pyval :=
  match r with
  | (_, _, _, metadata) => metadata
  end.

Definition output_images (r : render_output) : gmap string pyval :=
  match r with
  | (_, _, images, _) => images
  end.

Definition output_key (r : render_output) : string :=
  match r with
  | (key, _, _, _) => key
  end.

(** The merge the specification describes: every renderer's images, a
    later renderer's entry for a key replacing an earlier one. *)
Definition merged_images (rs : list render_output) : gmap string pyval :=
  fold_left (fun acc r => output_images r ∪ acc) rs ∅.

Definition output_payload (r : render_output) : pyval :=
  match r with
  | (_, rendered, _, _) => rendered
  end.

(** ** The request handler (main.py): requests, responses, options *)

(** [s.endswith(t)] *)
Fixpoint ends_with (t s : string) : bool :=
  String.eqb t s ||
  match s with
  | EmptyString => false
  | String _ s' => ends_with t s'
  end.

(** The request body: the URL and the optional configuration, a
    dictionary or [None]. *)
Record PDFParserConfig : Type := mk_request {
  file_url : string;
  optional_config : option (gmap string pyval)
}.

Inductive response_content : Type :=
| ErrorContent (error : string)       (* {"error": ...} *)
| OutputContent (output : rendered).

Record JSONResponse : Type := mk_response {
  content : response_content;
  status_code : Z
}.

(** What [requests.get(url, stream=True)] gives back, as far as the
    handler uses it: the outcome of [raise_for_status()], the
    [content-type] header if there is one, and the chunks that
    [iter_content] yields, followed by the exception it raises if the
    stream breaks. *)
Record http_response : Type := mk_http {
  http_raise_for_status : result unit;
  http_content_type : option string;
  http_chunks : list (list Byte.byte);
  http_stream_error : option exn
}.

(** The built-in exception classes that derive from [Exception], and
    those that derive from [BaseException] only. *)
Definition builtin_Exception_classes : list string :=
  ["Exception"; "ArithmeticError"; "FloatingPointError"; "OverflowError";
   "ZeroDivisionError"; "AssertionError"; "AttributeError"; "BufferError";
   "EOFError"; "ExceptionGroup"; "ImportError"; "ModuleNotFoundError";
   "LookupError"; "IndexError"; "KeyError"; "MemoryError"; "NameError";
   "UnboundLocalError"; "OSError"; "BlockingIOError"; "ChildProcessError";
   "ConnectionError"; "BrokenPipeError"; "ConnectionAbortedError";
   "ConnectionRefusedError"; "ConnectionResetError"; "FileExistsError";
   "FileNotFoundError"; "InterruptedError"; "IsADirectoryError";
   "NotADirectoryError"; "PermissionError"; "ProcessLookupError";
   "TimeoutError"; "ReferenceError"; "RuntimeError"; "NotImplementedError";
   "RecursionError"; "StopAsyncIteration"; "StopIteration"; "SyntaxError";
   "IndentationError"; "TabError"; "SystemError"; "TypeError"; "ValueError";
   "UnicodeError"; "UnicodeDecodeError"; "UnicodeEncodeError";
   "UnicodeTranslateError"; "Warning"; "BytesWarning"; "DeprecationWarning";
   "EncodingWarning"; "FutureWarning"; "ImportWarning";
   "PendingDeprecationWarning"; "ResourceWarning"; "RuntimeWarning";
   "SyntaxWarning"; "UnicodeWarning"; "UserWarning"].

Definition builtin_BaseException_only : list string :=
  ["BaseException"; "BaseExceptionGroup"; "GeneratorExit";
   "KeyboardInterrupt"; "SystemExit"].

(** [d.get(key, default)] on a dictionary or [None]. *)
Definition dict_get (d : option (gmap string pyval)) (key : string)
    (dflt : pyval) : result pyval :=
  match d with
  | None => Raise (AttributeError "'NoneType' object has no attribute 'get'")
  | Some m => Ok (default dflt (m !! key))
  end.

(** The local variables of lines 52-63. *)
Record options : Type := mk_options {
  opt_ollama_base_url : pyval;
  opt_ollama_model : pyval;
  opt_use_llm : pyval;
  opt_llm_service : pyval;
  opt_disable_ocr : pyval;
  opt_output_json : pyval;
  opt_ignore_TOC : pyval;
  opt_ignore_before_TOC : pyval;
  opt_renderer : pyval;
  opt_output_path : pyval
}.

(** The config dictionary of lines 97-106. *)
Definition converter_config (o : options) : gmap string pyval :=
  <["renderer" := opt_renderer o]>
  (<["ignore_before_TOC" := opt_ignore_before_TOC o]>
  (<["ignore_TOC" := opt_ignore_TOC o]>
  (<["output_json" := opt_output_json o]>
  (<["disable_ocr" := opt_disable_ocr o]>
  (<["ollama_model" := opt_ollama_model o]>
  (<["ollama_base_url" := opt_ollama_base_url o]>
  ({["use_llm" := opt_use_llm o]}))))))).

(** A [return] inside a block, or falling through to what follows. *)
Inductive flow (A : Type) : Type :=
| Continue (a : A)
| Return (r : JSONResponse).
Arguments Continue {A} a.
Arguments Return {A} r.

(** The collaborators of the request handler: the [requests] library,
    [str.lower], [marker.models.create_model_dict], the serialisation
    that [JSONResponse(content=...)] performs on a conversion output, and
    the class hierarchy of the exceptions that are not built in: whether
    the class of a given qualified name derives from [Exception], and
    whether it derives from [requests.exceptions.RequestException]. *)
Class Network : Type := {
  requests_get : string → result http_response;
  str_lower : string → string;
  create_model_dict : result (gmap string pyval);
  json_render : rendered → result unit;
  derives_from_Exception : string → bool;
  derives_from_RequestException : string → bool
}.

(** [isinstance(e, Exception)], the test of [except Exception]. *)
Definition is_Exception `{Network} (e : exn) : bool :=
  if bool_decide (exn_class e ∈ builtin_Exception_classes) then true
  else if bool_decide (exn_class e ∈ builtin_BaseException_only) then false
  else derives_from_Exception (exn_class e).

(** [isinstance(e, requests.exceptions.RequestException)], the test of
    [except requests.exceptions.RequestException]; no built-in class
    derives from that class. *)
Definition is_RequestException `{Network} (e : exn) : bool :=
  if bool_decide (exn_class e ∈ builtin_Exception_classes) then false
  else if bool_decide (exn_class e ∈ builtin_BaseException_only) then false
  else derives_from_RequestException (exn_class e).

(** [v.lower()] *)
Definition py_lower `{Network} (v : pyval) : result string :=
  match v with
  | PyStr s => Ok (str_lower s)
  | _ => Raise (AttributeError ("'" ++ type_name v ++
                                "' object has no attribute 'lower'"))
  end.

(** Lines 50-63 of [parse_pdf]. *)
Definition read_options `{Network} (optional_config : option (gmap string pyval))
  : result options :=
  let* ollama_base_url :=
    dict_get optional_config "ollama_base_url"
             (PyStr "http://ollama-keda.mobiusdtaas.ai") in
  let* ollama_model :=
    dict_get optional_config "ollama_model" (PyStr "llama3.2:latest") in
  let* use_llm := dict_get optional_config "use_llm" (PyBool false) in
  let* llm_service :=
    dict_get optional_config "llm_service" (PyStr "ollama") in
  let* lowered := py_lower llm_service in
  let llm_service :=
    if String.eqb lowered "ollama"
    then PyStr "marker.services.ollama.OllamaService" else llm_service in
  let* disable_ocr := dict_get optional_config "disable_ocr" (PyBool true) in
  let* output_json := dict_get optional_config "output_json" (PyBool true) in
  let* ignore_TOC := dict_get optional_config "ignore_TOC" (PyBool true) in
  let* ignore_before_TOC :=
    dict_get optional_config "ignore_before_TOC" (PyBool true) in
  let* renderer :=
    dict_get optional_config "renderer" (PyStr "pageMarkdown+chunks") in
  let* output_path := dict_get optional_config "output_path" (PyStr "./") in
  Ok (mk_options ollama_base_url ollama_model use_llm llm_service disable_ocr
                 output_json ignore_TOC ignore_before_TOC renderer output_path).

(** Lines 69-85: the download and the check that it is a PDF. *)
Definition download `{Network} (url : string) : result (flow http_response) :=
  match requests_get url with
  | Raise e =>
      if is_RequestException e
      then Ok (Return (mk_response
                 (ErrorContent ("Failed to download file from URL: " ++
                                exn_msg e)) 400))
      else Raise e
  | Ok response =>
      match http_raise_for_status response with
      | Raise e =>
          if is_RequestException e
          then Ok (Return (mk_response
                     (ErrorContent ("Failed to download file from URL: " ++
                                    exn_msg e)) 400))
          else Raise e
      | Ok _ =>
          let content_type := default "" (http_content_type response) in
          if negb (contains "application/pdf" content_type) &&
             negb (ends_with ".pdf" (str_lower url))
          then Ok (Return (mk_response
                     (ErrorContent "URL does not point to a PDF file") 400))
          else Ok (Continue response)
      end
  end.

(** A state of the orchestrator's world that holds just a file system. *)
Definition fs_world (fs : filesystem) : world := mk_world None ∅ fs None [].

(** ** Collaborators

    The collaborators of the orchestrator that live in other modules of
    the package ([marker.util], [marker.converters.BaseConverter],
    providers, builders, processors, renderers) or in the standard
    library.  They are parameters of the development: they may fail, they
    read what they are given, and they do not write the config
    dictionary, the artifact dictionary or the file system. *)
Class Collaborators : Type := {
  (* marker.util.strings_to_classes *)
  strings_to_classes : pyval → result (list pyval);
  (* BaseConverter.__init__(config) *)
  BaseConverter_init : option (gmap string pyval) → result unit;
  (* BaseConverter.resolve_dependencies(cls), given artifact_dict and config *)
  resolve_dependencies :
    gmap string pyval → option (gmap string pyval) → pyval → result pyval;
  (* BaseConverter.initialize_processors(processor_list) *)
  initialize_processors :
    gmap string pyval → option (gmap string pyval) → list pyval →
    result (list pyval);
  (* the class attribute override_map, as its list of items *)
  override_map : list (string * string);
  (* marker.providers.registry.provider_from_filepath *)
  provider_from_filepath : filesystem → string → result pyval;
  (* provider_cls(filepath, config) *)
  Provider : Type;
  provider_new :
    pyval → filesystem → string → option (gmap string pyval) → result Provider;
  (* DocumentBuilder(config, ignore_blocks=...)(provider, layout, line, ocr) *)
  DocumentBuilder_call :
    option (gmap string pyval) → list string → Provider →
    pyval → pyval → pyval → result Document;
  (* calling a resolved builder or processor on the document, which it
     changes in place *)
  stage_call : pyval → Document → result Document;
  (* calling a resolved object (or a class) on the document *)
  object_call : pyval → Document → result rendered;
  (* marker.renderers.markdown.cleanup_text *)
  cleanup_text : string → string;
  (* issubclass(cls, BaseRenderer) *)
  is_renderer_class : string → bool;
  (* str(identity) for a block identity *)
  str_identity : BlockId → string;
  (* the name tempfile picks for a new file with suffix .pdf *)
  tmp_name : filesystem → string;
  (* repr(cls) for the class of that name outside the built-in types,
     such as <class 'pathlib.PosixPath'> *)
  class_repr : string → string
}.

(** [repr(type(v))], as an f-string formats [type(v)]. *)
Definition type_repr `{Collaborators} (v : pyval) : string :=
  match v with
  | PyObj c => class_repr c
  | _ => "<class '" ++ type_name v ++ "'>"
  end.

Definition registration (item : string * string) : event :=
  EvRegisterBlock (fst item) (snd item).

(** The events of the constructor that come before the artifact
    dictionary is written: registrations of block classes and, when an
    LLM service is configured, the resolution of that service, whose
    result is the value [v] that is written. *)
Definition before_write `{Collaborators} (bag : gmap string pyval)
    (v : pyval) (ev : event) : Prop :=
  match ev with
  | EvRegisterBlock _ _ => True
  | EvResolve c cfg => resolve_dependencies bag cfg c = Ok v
  | _ => False
  end.

(** No explicit LLM service and [use_llm] false, in a config dictionary. *)
Definition no_llm_configured (cfg : gmap string pyval) : Prop :=
  (cfg !! "llm_service" = None ∨ cfg !! "llm_service" = Some PyNone) ∧
  truthy (default (PyBool false) (cfg !! "use_llm")) = false.

(** ** A concrete environment, for the examples *)

(** The class a dotted path names: its last component. *)
Definition class_of_path (s : string) : pyval :=
  PyCls (default s (last (split_on "."%char s))).

Definition sample_strings_to_classes (v : pyval) : result (list pyval) :=
  match v with
  | PyList l =>
      mapR (fun x => match x with
                     | PyStr s => Ok (class_of_path s)
                     | _ => Raise (AttributeError
                                     "object has no attribute 'rsplit'")
                     end) l
  | _ => Raise (TypeError "object is not iterable")
  end.

Definition instance_of (c : pyval) : pyval :=
  match c with
  | PyCls n => PyObj n
  | _ => c
  end.

(** Modelled from the spec: [BaseConverter.resolve_dependencies] is not
    among the sources; section 4.1 has the resolver take a single stage
    type or an ordered list of stage types and return the instances in
    the same order. *)
Definition sample_resolve (bag : gmap string pyval)
    (cfg : option (gmap string pyval)) (c : pyval) : result pyval :=
  match c with
  | PyCls _ => Ok (instance_of c)
  | PyList l => Ok (PyList (map instance_of l))
  | _ => Raise (ValueError "Cannot resolve dependency")
  end.

Definition sample_block (n : Z) (ty text : string) : Block :=
  mk_block (mk_block_id 0 ty n) text.

Definition sample_page : Page :=
  mk_page 0 false
    [mk_block_id 0 "SectionHeader" 0; mk_block_id 0 "Text" 1]
    [sample_block 0 "SectionHeader" "Title"; sample_block 1 "Text" "Body"].

Definition sample_document : Document := mk_document [sample_page].

(** A page with no blocks that is not flagged as ignored. *)
Definition blank_page : Page := mk_page 0 false [] [].
Definition blank_document : Document := mk_document [blank_page].

Definition sample_str_identity (id : BlockId) : string :=
  "/page/" ++ pretty (bid_page id) ++ "/" ++ bid_type id ++ "/" ++
  pretty (bid_num id).

Definition page_images : gmap string pyval :=
  {["_page_0_Picture_1.jpeg" := PyStr "picture"]}.
Definition chunk_images : gmap string pyval :=
  {["_page_0_Figure_2.jpeg" := PyStr "figure"]}.

Definition sample_object_call (f : pyval) (document : Document)
  : result rendered :=
  match f with
  | PyObj n =>
      if String.eqb n "PageMarkdownRenderer" then
        Ok (RTriple (PyList [PyStr "# Title"]) page_images (PyStr "page metadata"))
      else if String.eqb n "ChunkRenderer" then
        Ok (RTriple (PyList [PyStr "Title"; PyStr "Body"]) chunk_images
                    (PyStr "chunk metadata"))
      else if String.eqb n "MarkdownRenderer" then
        Ok (RTriple (PyStr "# Title ") ∅ (PyStr "markdown metadata"))
      else Raise (TypeError ("'" ++ n ++ "' object is not callable"))
  | _ => Raise (TypeError "object is not callable")
  end.

(** A chain in which every processor succeeds, and one in which the
    LLM-assisted table processor fails. *)
Definition steady_stage (p : pyval) (document : Document) : result Document :=
  Ok document.

Definition flaky_llm_stage (p : pyval) (document : Document)
  : result Document :=
  match p with
  | PyObj n =>
      if String.eqb n "LLMTableProcessor"
      then Raise (mk_exn "TimeoutError" "LLM service timed out")
      else Ok document
  | _ => Ok document
  end.

Definition sample_env (stage : pyval → Document → result Document)
  : Collaborators := {|
  strings_to_classes := sample_strings_to_classes;
  BaseConverter_init := fun _ => Ok tt;
  resolve_dependencies := sample_resolve;
  initialize_processors := fun bag cfg l => mapR (sample_resolve bag cfg) l;
  override_map := [];
  provider_from_filepath := fun fs p =>
    if os_path_exists fs p then Ok (PyCls "PdfProvider")
    else Raise (mk_exn "FileNotFoundError" p);
  Provider := list Byte.byte;
  provider_new := fun c fs p cfg =>
    match fs_files fs !! p with
    | Some data => Ok data
    | None => Raise (mk_exn "FileNotFoundError" p)
    end;
  DocumentBuilder_call := fun cfg ignore provider layout line ocr =>
    Ok sample_document;
  stage_call := stage;
  object_call := sample_object_call;
  cleanup_text := strip;
  is_renderer_class := fun n =>
    String.eqb n "PageMarkdownRenderer" || String.eqb n "ChunkRenderer" ||
    String.eqb n "MarkdownRenderer";
  str_identity := sample_str_identity;
  tmp_name := fun _ => "/tmp/tmpq3x8.pdf";
  class_repr := fun n =>
    if String.eqb n "PosixPath" then "<class 'pathlib.PosixPath'>"
    else "<class 'marker." ++ n ++ "'>"
|}.

Definition steady_env : Collaborators := sample_env steady_stage.
Definition flaky_env : Collaborators := sample_env flaky_llm_stage.

Definition sample_pdf : list Byte.byte := [Byte.x25; Byte.x50; Byte.x44; Byte.x46].

Definition sample_fs : filesystem :=
  mk_fs {["one_page.pdf" := sample_pdf]} ∅.

(** A file system whose temporary directory lets files be created but
    not removed. *)
Definition sticky_fs : filesystem :=
  mk_fs {["one_page.pdf" := sample_pdf]} {["/tmp/tmpq3x8.pdf"]}.

Definition sample_world (cfg : gmap string pyval) (fs : filesystem) : world :=
  mk_world (Some cfg) {["layout_model" := PyObj "LayoutModel"]} fs None [].

Definition no_llm_config : gmap string pyval :=
  {["use_llm" := PyBool false]}.


(** The converter the constructor is written to build from a config
    without [renderer]: the two default renderers, no LLM service. *)
Definition default_converter : PdfConverter :=
  mk_converter [] (PyList default_renderers) PyNone
    [PyObj "OrderProcessor"; PyObj "LLMTableProcessor"; PyObj "TextProcessor"]
    (PyCls "LayoutBuilder").

(** A converter with a single renderer class in [self.renderer]. *)
Definition markdown_converter : PdfConverter :=
  mk_converter [] (PyCls "MarkdownRenderer") PyNone
    [PyObj "OrderProcessor"; PyObj "TextProcessor"]
    (PyCls "LayoutBuilder").

(** A network on which every download succeeds with a two-chunk PDF. *)
Definition sample_http : http_response :=
  mk_http (Ok tt) (Some "application/pdf")
          [[Byte.x25; Byte.x50]; [Byte.x44; Byte.x46]] None.

(** ASCII lower-casing. *)
Definition ascii_lower (c : ascii) : ascii :=
  let n := nat_of_ascii c in
  if Nat.leb 65 n && Nat.leb n 90 then ascii_of_nat (n + 32) else c.

Fixpoint lower (s : string) : string :=
  match s with
  | EmptyString => EmptyString
  | String c s' => String (ascii_lower c) (lower s')
  end.

(** The exception classes of [requests.exceptions]; all of them derive
    from [RequestException], which derives from [OSError]. *)
Definition requests_exceptions : list string :=
  map (String.append "requests.exceptions.")
    ["RequestException"; "HTTPError"; "ConnectionError"; "ProxyError";
     "SSLError"; "Timeout"; "ConnectTimeout"; "ReadTimeout";
     "URLRequired"; "TooManyRedirects"; "MissingSchema"; "InvalidSchema";
     "InvalidURL"; "InvalidHeader"; "InvalidProxyURL";
     "ChunkedEncodingError"; "ContentDecodingError"; "StreamConsumedError";
     "RetryError"; "UnrewindableBodyError"; "JSONDecodeError";
     "InvalidJSONError"].

(** A network whose library exceptions are those of [requests] and
    [asyncio.CancelledError], which derives from [BaseException] only. *)
Definition sample_network (get : string → result http_response) : Network := {|
  requests_get := get;
  str_lower := lower;
  create_model_dict := Ok {["layout_model" := PyObj "LayoutModel"]};
  json_render := fun _ => Ok tt;
  derives_from_Exception := fun c =>
    negb (String.eqb c "asyncio.exceptions.CancelledError");
  derives_from_RequestException := fun c =>
    bool_decide (c ∈ requests_exceptions)
|}.

Definition good_network : Network := sample_network (fun _ => Ok sample_http).

(** A download that breaks after its first chunk. *)
Definition broken_stream : http_response :=
  mk_http (Ok tt) (Some "application/pdf") [[Byte.x25; Byte.x50]]
          (Some (mk_exn "requests.exceptions.ChunkedEncodingError"
                        "Connection broken")).

Definition unreachable_network : Network :=
  sample_network (fun url =>
    Raise (mk_exn "requests.exceptions.ConnectionError"
             ("Failed to establish a new connection: " ++ url))).

(** A download interrupted from the keyboard. *)
Definition interrupted_network : Network :=
  sample_network (fun _ => Raise (mk_exn "KeyboardInterrupt" "")).

Definition broken_network : Network :=
  sample_network (fun _ => Ok broken_stream).

(** A server that answers with an HTML page. *)
Definition html_network : Network :=
  sample_network (fun _ => Ok (mk_http (Ok tt) (Some "text/html") [] None)).

Definition sample_request : PDFParserConfig :=
  mk_request "https://cdn.example.com/one_page.PDF" (Some ∅).

(** Two pages with the same page id. *)
Definition twin_document : Document := mk_document [blank_page; sample_page].

Section Orchestrator.

Context `{env : Collaborators}.

(** [self.resolve_dependencies(c)] *)
Definition resolve (c : pyval) : M pyval :=
  let! w := get_world in
  let! _ := log_event (EvResolve c (w_config w)) in
  liftR (resolve_dependencies (w_bag w) (w_config w) c).

(** The loop of lines 154-155. *)
Fixpoint register_overrides (l : list (string * string)) : M unit :=
  match l with
  | [] => ret tt
  | (bt, c) :: l' =>
      let! _ := log_event (EvRegisterBlock bt c) in
      register_overrides l'
  end.

(** [l[0]] *)
Definition py_first (l : list pyval) : result pyval :=
  match l with
  | [] => Raise (mk_exn "IndexError" "list index out of range")
  | x :: _ => Ok x
  end.

(** Lines 170-174 of the constructor: the service named by
    [llm_service] if there is one, the default service if [use_llm] is
    set, and otherwise the value of [llm_service] as it is. *)
Definition resolve_llm_service (llm_service : pyval)
    (config : gmap string pyval) : M pyval :=
  if truthy llm_service then
    let! classes := liftR (strings_to_classes (PyList [llm_service])) in
    let! llm_service_cls := liftR (py_first classes) in
    resolve llm_service_cls
  else if truthy (default (PyBool false) (config !! "use_llm")) then
    resolve default_llm_service
  else ret llm_service.

(** *** PdfConverter.__init__ (lines 125-186)

    [parse] stands for the function called at line 133; the
    constructor of the source is [PdfConverter_init] below. *)
Definition PdfConverter_init_with (parse : pyval → result pyval)
    (processor_list : option (list string)) : M PdfConverter :=
  let! renderer := config_get "renderer" PyNone in              (* 132 *)
  let! renderer := liftR (parse renderer) in                    (* 133 *)
  let! has_renderer := config_contains "renderer" in            (* 135 *)
  let! _ := (if (has_renderer : bool)
             then config_pop "renderer" else ret PyNone) in     (* 136 *)
  let! llm_service := config_get "llm_service" PyNone in        (* 138 *)
  let! has_llm := config_contains "llm_service" in              (* 140 *)
  let! _ := (if (has_llm : bool)
             then config_pop "llm_service" else ret PyNone) in  (* 141 *)
  let! w := get_world in
  let! _ := liftR (BaseConverter_init (w_config w)) in          (* 143 *)
  (* 145-146: the local name config is rebound to {} when it is None *)
  let config := default ∅ (w_config w) in
  let ignore_blocks :=                                          (* 149-152 *)
    if truthy (default (PyBool false) (config !! "ignore_TOC"))
    then ["TableOfContents"] else [] in
  let! _ := register_overrides override_map in                  (* 154-155 *)
  let! processor_list :=                                        (* 157-160 *)
    match processor_list with
    | Some l => liftR (strings_to_classes (PyList (map PyStr l)))
    | None => ret default_processors
    end in
  let! renderer :=                                              (* 162-165 *)
    if truthy renderer
    then liftR (strings_to_classes
                  (match renderer with
                   | PyStr _ => PyList [renderer]
                   | _ => renderer
                   end))
    else ret default_renderers in
  let! llm_service := resolve_llm_service llm_service config in (* 170-174 *)
  let! _ := bag_write "llm_service" llm_service in              (* 177 *)
  let! w := get_world in
  let! _ := log_event (EvInitProcessors processor_list (w_config w)) in
  let! processor_list :=                                        (* 182 *)
    liftR (initialize_processors (w_bag w) (w_config w) processor_list) in
  let! _ := set_page_count None in                              (* 186 *)
  ret (mk_converter ignore_blocks (PyList renderer) llm_service
                    processor_list (PyCls "LayoutBuilder")).

Definition PdfConverter_init (fuel : nat)
    (processor_list : option (list string)) : M PdfConverter :=
  PdfConverter_init_with (renderer2cls fuel) processor_list.

(** *** PdfConverter.filepath_to_str (lines 188-209)

    The method is a generator used as a context manager: the part up to
    the [yield] runs when the [with] statement is entered, the [finally]
    clause runs when the statement is left, normally or by an
    exception. *)

(** [tempfile.NamedTemporaryFile(delete=False, suffix=".pdf")]: a new,
    empty file under a name that is not in use. *)
Definition NamedTemporaryFile : M string :=
  fun w =>
    let p := tmp_name (w_fs w) in
    if os_path_exists (w_fs w) p
    then (Raise (mk_exn "FileExistsError" p), w)
    else (Ok p, snd (set_fs (write_file (w_fs w) p []) w)).

(** Lines 190-206.  Returns the local [temp_file] (the name of the file
    it stands for), and the yielded path or the exception raised before
    the [yield]. *)
Definition filepath_to_str_enter (file_input : file_input) (w : world)
  : option string * result string * world :=
  match file_input with
  | FilePath s | OtherInput (PyStr s) => (None, Ok s, w)        (* 192-193 *)
  | BytesIO data =>
      match NamedTemporaryFile w with                           (* 195-197 *)
      | (Raise e, w1) => (None, Raise e, w1)
      | (Ok name, w1) =>                                        (* 198-200 *)
          (Some name, Ok name,
           snd (set_fs (write_file (w_fs w1) name data) w1))    (* 206 *)
      end
  | OtherInput v =>
      match NamedTemporaryFile w with                           (* 195-197 *)
      | (Raise e, w1) => (None, Raise e, w1)
      | (Ok name, w1) =>                                        (* 202-204 *)
          (Some name,
           Raise (TypeError ("Expected str or BytesIO, got " ++ type_repr v)),
           w1)
      end
  end.

(** Lines 207-209. *)
Definition filepath_to_str_finally (temp_file : option string) : M unit :=
  fun w =>
    match temp_file with
    | None => (Ok tt, w)
    | Some name =>
        if os_path_exists (w_fs w) name then
          match os_unlink (w_fs w) name with
          | Ok fs' => set_fs fs' w
          | Raise e => (Raise e, w)
          end
        else (Ok tt, w)
    end.

(** [with self.filepath_to_str(file_input) as temp_path: body].  An
    exception raised by the [finally] clause replaces the outcome of the
    body. *)
Definition filepath_to_str {A} (file_input : file_input)
    (body : string → M A) : M A :=
  fun w =>
    match filepath_to_str_enter file_input w with
    | (temp_file, Raise e, w1) =>
        match filepath_to_str_finally temp_file w1 with
        | (Ok _, w2) => (Raise e, w2)
        | (Raise e', w2) => (Raise e', w2)
        end
    | (temp_file, Ok temp_path, w1) =>
        match body temp_path w1 with
        | (r, w2) =>
            match filepath_to_str_finally temp_file w2 with
            | (Ok _, w3) => (r, w3)
            | (Raise e', w3) => (Raise e', w3)
            end
        end
    end.

(** *** The cleanup clause of parse_pdf (main.py, lines 117-123) *)
Definition parse_pdf_cleanup (tmp_path : option string) : M unit :=
  fun w =>
    match tmp_path with
    | None => (Ok tt, w)
    | Some p =>
        if negb (String.eqb p "") && os_path_exists (w_fs w) p then
          match os_unlink (w_fs w) p with
          | Ok fs' => set_fs fs' w
          | Raise e => if is_OSError e then (Ok tt, w) else (Raise e, w)
          end
        else (Ok tt, w)
    end.

(** *** PdfConverter.build_document (lines 211-226) *)

(** The loop of lines 223-224: each processor is called on the document
    in turn; nothing catches what a processor raises. *)
Fixpoint run_processors (l : list pyval) (document : Document)
  : result Document :=
  match l with
  | [] => Ok document
  | processor :: l' =>
      let* document := stage_call processor document in
      run_processors l' document
  end.

Definition build_document (self : PdfConverter) (filepath : string)
  : M Document :=
  let! w := get_world in
  let! provider_cls := liftR (provider_from_filepath (w_fs w) filepath) in
  let! layout_builder := resolve (layout_builder_class self) in
  let! line_builder := resolve (PyCls "LineBuilder") in
  let! ocr_builder := resolve (PyCls "OcrBuilder") in
  let! _ := log_event (EvProvider filepath (w_config w)) in
  let! provider :=
    liftR (provider_new provider_cls (w_fs w) filepath (w_config w)) in
  let! _ := log_event (EvDocumentBuilder (w_config w)) in
  let! document :=
    liftR (DocumentBuilder_call (w_config w) (ignore_blocks self) provider
             layout_builder line_builder ocr_builder) in
  let! structure_builder_cls := resolve (PyCls "StructureBuilder") in
  let! document := liftR (stage_call structure_builder_cls document) in
  let! document := liftR (run_processors (processor_list self) document) in
  ret document.

(** *** PdfConverter.render (lines 228-242) *)

(** [f(document)] *)
Definition py_call (f : pyval) (document : Document) : result rendered :=
  match f with
  | PyObj _ | PyCls _ => object_call f document
  | _ => Raise (TypeError ("'" ++ type_name f ++ "' object is not callable"))
  end.

(** The number of items of a value that can be iterated. *)
Definition iter_length (v : pyval) : option nat :=
  match v with
  | PyList l => Some (List.length l)
  | PyStr s => Some (String.length s)
  | _ => None
  end.

(** [a, b, c = r]: a value that cannot be iterated raises [TypeError],
    an iterable of fewer or more than three items [ValueError].  The
    last case, three items of which the second is no dictionary, is the
    one [rendered] leaves out; it is closed as the first one is. *)
Definition unpack3 (r : rendered)
  : result (pyval * gmap string pyval * pyval) :=
  match r with
  | RTriple p i m => Ok (p, i, m)
  | ROther v =>
      match iter_length v with
      | Some n =>
          if Nat.ltb n 3 then
            Raise (ValueError ("not enough values to unpack (expected 3, got "
                               ++ pretty n ++ ")"))
          else if Nat.ltb 3 n then
            Raise (ValueError "too many values to unpack (expected 3)")
          else
            Raise (TypeError ("cannot unpack non-iterable " ++ type_name v ++
                              " object"))
      | None =>
          Raise (TypeError ("cannot unpack non-iterable " ++ type_name v ++
                            " object"))
      end
  end.

(** [c.__name__] *)
Definition class_name (c : pyval) : result string :=
  match c with
  | PyCls n => Ok n
  | _ => Raise (AttributeError ("'" ++ type_name c ++
                                "' object has no attribute '__name__'"))
  end.

(** The method returns a 4-tuple, or [None] when the class is none of
    the three it knows. *)
Definition render (self : PdfConverter) (renderer_cls : pyval)
    (document : Document)
  : M (option (string * pyval * gmap string pyval * pyval)) :=
  let! renderer := resolve renderer_cls in
  let! name := liftR (class_name renderer_cls) in
  if String.eqb name "PageMarkdownRenderer" then
    let! out := liftR (py_call renderer document) in
    let! t := liftR (unpack3 out) in
    match t with
    | (page_output, images, metadata) =>
        ret (Some ("page_renders", page_output, images, metadata))
    end
  else if String.eqb name "ChunkRenderer" then
    let! out := liftR (py_call renderer document) in
    let! t := liftR (unpack3 out) in
    match t with
    | (json_output, images, metadata) =>
        ret (Some ("chunks", json_output, images, metadata))
    end
  else if String.eqb name "MarkdownRenderer" then
    let! out := liftR (py_call renderer document) in
    let! t := liftR (unpack3 out) in
    match t with
    | (rendered, images, metadata) =>
        let rendered :=
          match rendered with
          | PyStr s => PyStr (cleanup_text s)
          | _ => rendered
          end in
        ret (Some ("markdown", rendered, images, metadata))
    end
  else ret None.

(** *** PdfConverter.render_document (lines 244-269) *)

(** Lines 246-251: one entry per page, keyed by the page id. *)
Definition page_entry (doc_child : Page) : list string :=
  if ignore_for_output doc_child then []
  else map str_identity (structure doc_child).

Definition page_structure (document : Document) : gmap Z (list string) :=
  fold_left (fun m doc_child => <[page_id doc_child := page_entry doc_child]> m)
            (pages document) ∅.

(** The loop of lines 254-257, carrying [out_render] and the local
    [metadata], which is unbound until the first renderer has run. *)
Fixpoint render_loop (self : PdfConverter) (l : list pyval)
    (document : Document) (out_render : gmap string out_value)
    (metadata : option pyval)
  : M (gmap string out_value * option pyval) :=
  match l with
  | [] => ret (out_render, metadata)
  | renderer_cls :: l' =>
      let! r := render self renderer_cls document in
      match r with
      | None =>
          raise (TypeError "cannot unpack non-iterable NoneType object")
      | Some (key, rendered, images, metadata) =>
          render_loop self l' document
            (<["images" := OutImages images]>
               (<[key := OutPayload rendered]> out_render))
            (Some metadata)
      end
  end.

Definition render_document (self : PdfConverter) (document : Document)
  : M (gmap string out_value) :=
  let out_render : gmap string out_value :=
    {["page_structure" := OutPageStructure (page_structure document)]} in
  match renderer self with
  | PyList l =>                                                 (* 253-258 *)
      let! r := render_loop self l document out_render None in
      let! metadata := liftR (load_local "metadata" (snd r)) in
      ret (<["metadata" := OutMetadata metadata]> (fst r))
  | PyCls c =>                                                  (* 260-267 *)
      if is_renderer_class c then
        let! r := render self (PyCls c) document in
        match r with
        | None =>
            raise (TypeError "cannot unpack non-iterable NoneType object")
        | Some (key, rendered, images, metadata) =>
            ret (<["images" := OutImages images]>
                   (<["metadata" := OutMetadata metadata]>
                      (<[key := OutPayload rendered]> out_render)))
        end
      else
        raise (ValueError
          "Renderer must be a BaseRenderer subclass or a list of BaseRenderer subclasses.")
  | _ => raise (TypeError "issubclass() arg 1 must be a class")
  end.

(** *** PdfConverter.__call__ (lines 271-277) *)
Definition PdfConverter_call (self : PdfConverter) (filepath : file_input)
  : M rendered :=
  filepath_to_str filepath (fun temp_path =>
    let! document := build_document self temp_path in
    let! _ := set_page_count (Some (length (pages document))) in
    let! renderer := resolve (renderer self) in
    let! rendered := liftR (py_call renderer document) in
    ret rendered).

(** ** Vocabulary of the specification, over the orchestrator *)

(** The builder part of [build_document] (lines 212-221) succeeds on
    [filepath] and gives [document]. *)
Definition builders_give (self : PdfConverter) (filepath : string)
    (w : world) (document : Document) : Prop :=
  ∃ provider_cls layout line ocr provider document0 structure_builder,
    provider_from_filepath (w_fs w) filepath = Ok provider_cls ∧
    resolve_dependencies (w_bag w) (w_config w) (layout_builder_class self)
      = Ok layout ∧
    resolve_dependencies (w_bag w) (w_config w) (PyCls "LineBuilder")
      = Ok line ∧
    resolve_dependencies (w_bag w) (w_config w) (PyCls "OcrBuilder")
      = Ok ocr ∧
    provider_new provider_cls (w_fs w) filepath (w_config w) = Ok provider ∧
    DocumentBuilder_call (w_config w) (ignore_blocks self) provider
      layout line ocr = Ok document0 ∧
    resolve_dependencies (w_bag w) (w_config w) (PyCls "StructureBuilder")
      = Ok structure_builder ∧
    stage_call structure_builder document0 = Ok document.

(** The conversion as the specification describes it: one
    configuration [cfg], fixed for the call, is what every stage is
    resolved and built with, on the artifact dictionary [bag] and the
    file system [fs]. *)
Definition convert_with_config (cfg : option (gmap string pyval))
    (bag : gmap string pyval) (fs : filesystem) (self : PdfConverter)
    (filepath : string) : result rendered :=
  let* provider_cls := provider_from_filepath fs filepath in
  let* layout_builder :=
    resolve_dependencies bag cfg (layout_builder_class self) in
  let* line_builder := resolve_dependencies bag cfg (PyCls "LineBuilder") in
  let* ocr_builder := resolve_dependencies bag cfg (PyCls "OcrBuilder") in
  let* provider := provider_new provider_cls fs filepath cfg in
  let* document :=
    DocumentBuilder_call cfg (ignore_blocks self) provider
      layout_builder line_builder ocr_builder in
  let* structure_builder := resolve_dependencies bag cfg (PyCls "StructureBuilder") in
  let* document := stage_call structure_builder document in
  let* document := run_processors (processor_list self) document in
  let* renderer := resolve_dependencies bag cfg (renderer self) in
  py_call renderer document.

(** The failure policy the specification describes for the processor
    chain: when the only processors that fail are LLM-assisted ones,
    the chain completes. *)
Definition llm_failures_skipped : Prop :=
  ∀ l document,
    (∀ p d e, p ∈ l → stage_call p d = Raise e → is_llm_processor p = true) →
    ∃ document', run_processors l document = Ok document'.

(** A string identity resolves on a page when it is the string form of
    the identity of one of the page's blocks. *)
Definition resolves (p : Page) (s : string) : Prop :=
  ∃ b, b ∈ children p ∧ str_identity (block_id b) = s.

(** Referential integrity of a page: every structure entry is the
    identity of one of its blocks. *)
Definition structure_resolves (p : Page) : Prop :=
  ∀ id, id ∈ structure p → ∃ b, b ∈ children p ∧ block_id b = id.

(** The two shapes the specification gives a [page_structure] entry:
    empty for an ignored page, otherwise non-empty with identities that
    all resolve. *)
Definition entry_as_specified (p : Page) (entry : list string) : Prop :=
  (ignore_for_output p = true ∧ entry = []) ∨
  (entry ≠ [] ∧ Forall (resolves p) entry).

(** ** parse_pdf (main.py, lines 39-123) *)

Context `{net : Network}.

(** Lines 88-92: the chunks of the download are written to a new
    temporary file; [tmp_path] is assigned after the last chunk. *)
Definition save_download (response : http_response) (fs : filesystem)
  : result string * filesystem :=
  match NamedTemporaryFile (fs_world fs) with
  | (Raise e, w) => (Raise e, w_fs w)
  | (Ok name, w) =>
      let fs1 := write_file (w_fs w) name (concat (http_chunks response)) in
      match http_stream_error response with
      | Some e => (Raise e, fs1)
      | None => (Ok name, fs1)
      end
  end.

(** Lines 95-110: a converter is built on a fresh artifact dictionary
    and a fresh config dictionary, and called on the temporary file. *)
Definition convert_download (fuel : nat) (o : options) (tmp_path : string)
    (fs : filesystem) : result rendered * filesystem :=
  match create_model_dict with
  | Raise e => (Raise e, fs)
  | Ok artifact_dict =>
      match PdfConverter_init fuel None
              (mk_world (Some (converter_config o)) artifact_dict fs None [])
      with
      | (Raise e, w) => (Raise e, w_fs w)
      | (Ok converter, w) =>
          match PdfConverter_call converter (FilePath tmp_path) w with
          | (output, w') => (output, w_fs w')
          end
      end
  end.

(** The [try] block, lines 48-112: the local [tmp_path] when the block is
    left, and the response it returns or the exception it raises. *)
Definition parse_pdf_try (fuel : nat) (request : PDFParserConfig)
    (fs : filesystem) : option string * result JSONResponse * filesystem :=
  match read_options (optional_config request) with
  | Raise e => (None, Raise e, fs)
  | Ok o =>
      if String.eqb (file_url request) "" then                  (* 66-67 *)
        (None, Ok (mk_response (ErrorContent "file_url is required") 400), fs)
      else
        match download (file_url request) with
        | Raise e => (None, Raise e, fs)
        | Ok (Return r) => (None, Ok r, fs)
        | Ok (Continue response) =>
            match save_download response fs with
            | (Raise e, fs1) => (None, Raise e, fs1)
            | (Ok tmp_path, fs1) =>
                match convert_download fuel o tmp_path fs1 with
                | (Raise e, fs2) => (Some tmp_path, Raise e, fs2)
                | (Ok output, fs2) =>
                    (Some tmp_path,
                     (let* _ := json_render output in
                      Ok (mk_response (OutputContent output) 200)),
                     fs2)
                end
            end
        end
  end.

(** The [except Exception] clause of lines 114-115: an exception that
    derives from [Exception] is answered with status 500; any other
    ([KeyboardInterrupt], [SystemExit], ...) is not caught. *)
Definition except_Exception (e : exn) : result JSONResponse :=
  if is_Exception e
  then Ok (mk_response (ErrorContent (exn_msg e)) 500)
  else Raise e.

(** The handler: the [try] block, the [except Exception] clause and the
    [finally] clause of lines 117-123, which runs whether the handler
    returns or raises. *)
Definition parse_pdf (fuel : nat) (request : PDFParserConfig)
    (fs : filesystem) : result JSONResponse * filesystem :=
  match parse_pdf_try fuel request fs with
  | (tmp_path, r, fs1) =>
      let outcome :=
        match r with
        | Ok response => Ok response
        | Raise e => except_Exception e
        end in
      match parse_pdf_cleanup tmp_path (fs_world fs1) with
      | (Ok _, w) => (outcome, w_fs w)
      | (Raise e, w) => (Raise e, w_fs w)
      end
  end.

(** The download of [request] succeeds and is taken for a PDF. *)
Definition downloads (request : PDFParserConfig) (response : http_response)
  : Prop :=
  file_url request ≠ "" ∧
  requests_get (file_url request) = Ok response ∧
  http_raise_for_status response = Ok tt ∧
  (contains "application/pdf" (default "" (http_content_type response)) = true ∨
   ends_with ".pdf" (str_lower (file_url request)) = true).

(** ** The selector parser *)

(** The first statement of [renderer2cls] reads the local [renderer],
    which nothing has assigned: every call fails there. *)
Lemma renderer2cls_unbound (fuel : nat) (name : pyval) :
  renderer2cls (S fuel) name = Raise (UnboundLocalError "renderer").
Proof. reflexivity. Qed.

Lemma renderer2cls_raises (fuel : nat) (name : pyval) :
  ∃ e, renderer2cls fuel name = Raise e.
Proof. destruct fuel; eexists; reflexivity. Qed.

Lemma mapR_raise_from {A B} (f : A → result B) (l : list A) (e : exn) :
  mapR f l = Raise e → ∃ x, x ∈ l ∧ f x = Raise e.
Proof.
  induction l as [|x l IH]; simpl; [discriminate|].
  destruct (f x) as [y|e'] eqn:Hx; simpl.
  - destruct (mapR f l) as [ys|e'']; simpl; [discriminate|].
    intros [= ->]. destruct IH as (z & Hz & Hfz); [reflexivity|].
    exists z. split; [by apply list_elem_of_further | done].
  - intros [= ->]. exists x. split; [apply list_elem_of_here | done].
Qed.

(** C2, as amended.  Parsing a renderer selector never reports a
    [ConfigurationError], whether or not the tokens of the selector are
    recognised renderer short names: no call of [renderer2cls] raises
    one, whatever its argument and however deep the recursion of line 71
    may go, and neither does its body run from any state of its local
    variables, so also from a state in which the variable that the body
    reads holds the selector. *)
Theorem parser_never_reports_configuration_error :
  (∀ fuel name, is_configuration_error (renderer2cls fuel name) = false) ∧
  (∀ fuel F,
     is_configuration_error (renderer2cls_body (renderer2cls fuel) F)
     = false).
Proof.
  assert (Hcall : ∀ fuel name,
             is_configuration_error (renderer2cls fuel name) = false).
  { intros [|fuel] name; reflexivity. }
  split; [exact Hcall|].
  intros fuel F. unfold renderer2cls_body.
  destruct (f_renderer F) as [r|]; simpl; [|reflexivity].
  destruct (py_eq_str r "pageMarkdown"); [reflexivity|].
  destruct (py_eq_str r "markdown"); [reflexivity|].
  destruct (py_eq_str r "chunks"); [reflexivity|].
  destruct r as [| | |s|l| |]; simpl; try reflexivity.
  - destruct (has_char "+"%char s); simpl; [|reflexivity].
    destruct (mapR _ _) as [rs|e] eqn:Hmap; simpl; [reflexivity|].
    apply mapR_raise_from in Hmap as (x & _ & Hx).
    specialize (Hcall fuel x). rewrite Hx in Hcall. exact Hcall.
  - destruct (existsb _ l); reflexivity.
Qed.

(** ** Frame lemmas *)

Lemma frame_refl b w : frame b w w.
Proof.
  repeat split; try done. exists []. split; [by rewrite app_nil_r | constructor].
Qed.

Lemma frame_trans b w1 w2 w3 : frame b w1 w2 → frame b w2 w3 → frame b w1 w3.
Proof.
  intros (Hc1 & Hb1 & Hf1 & evs1 & Hl1 & He1) (Hc2 & Hb2 & Hf2 & evs2 & Hl2 & He2).
  repeat split.
  - congruence.
  - congruence.
  - intros Hb. rewrite Hf2, Hf1; done.
  - exists (evs1 ++ evs2)%list. split.
    + rewrite Hl2, Hl1. by rewrite app_assoc.
    + apply Forall_app. split; [done|]. by rewrite <- Hc1.
Qed.

Lemma frame_bind {A B} b (c : M A) (k : A → M B) w :
  frame b w (snd (c w)) →
  (∀ a w', c w = (Ok a, w') → frame b w' (snd (k a w'))) →
  frame b w (snd (bindM c k w)).
Proof.
  intros Hc Hk. unfold bindM. destruct (c w) as [[a|e] w'] eqn:E; simpl in *.
  - eapply frame_trans; [exact Hc|]. by apply Hk.
  - exact Hc.
Qed.

Lemma frame_liftR {A} b (r : result A) w : frame b w (snd (liftR r w)).
Proof. apply frame_refl. Qed.

Lemma frame_ret {A} b (a : A) w : frame b w (snd (ret a w)).
Proof. apply frame_refl. Qed.

Lemma frame_log_event b ev w :
  quiet_event (w_config w) ev → frame b w (snd (log_event ev w)).
Proof.
  intros Hq. repeat split; try done. exists [ev]. split; [done|].
  by constructor.
Qed.

Lemma frame_set_page_count b n w : frame b w (snd (set_page_count n w)).
Proof.
  repeat split; try done. exists []. split; [by rewrite app_nil_r | constructor].
Qed.

Lemma frame_resolve b c w : frame b w (snd (resolve c w)).
Proof.
  unfold resolve. apply frame_bind; [apply frame_refl|].
  intros a w' [= <- <-]. apply frame_bind.
  - apply frame_log_event. split; [done|]. by intros ? [= <-].
  - intros u w' _. apply frame_liftR.
Qed.

Lemma quiet_event_intro cfg ev :
  is_bag_write ev = false →
  default cfg (event_config ev) = cfg →
  quiet_event cfg ev.
Proof.
  intros Hw Hc. split; [done|]. intros c Hev. rewrite Hev in Hc. done.
Qed.

(** Runs a straight-line monadic definition by cases on each of its
    collaborators' outcomes, then checks the frame on the worlds that
    result. *)
Ltac frame_cases :=
  repeat match goal with
         | |- context [match ?r with Ok _ => _ | Raise _ => _ end] =>
             destruct r; cbn
         end.

Ltac frame_close :=
  split; [done|]; split; [done|]; split; [done|]; cbn;
  first
    [ exists []; split; [ by rewrite app_nil_r | apply Forall_nil_2 ]
    | eexists; split;
      [ rewrite <- ?app_assoc; reflexivity
      | repeat first [ apply Forall_nil_2
                     | apply Forall_cons_2;
                       [apply quiet_event_intro; reflexivity|] ] ] ].

Lemma frame_build_document b self filepath w :
  frame b w (snd (build_document self filepath w)).
Proof.
  unfold build_document, bindM, resolve, liftR, get_world, log_event, ret.
  cbn. frame_cases; frame_close.
Qed.

(** ** The temporary file *)

Lemma frame_filepath_to_str_enter file_input w :
  frame false w (snd (filepath_to_str_enter file_input w)).
Proof.
  unfold filepath_to_str_enter, NamedTemporaryFile, set_fs.
  destruct file_input as [s|data|v]; [| |destruct v]; cbn;
    try destruct (os_path_exists _ _); cbn; apply frame_refl || frame_close.
Qed.

Lemma frame_filepath_to_str_finally temp_file w :
  frame false w (snd (filepath_to_str_finally temp_file w)).
Proof.
  unfold filepath_to_str_finally, set_fs.
  destruct temp_file as [name|]; [|apply frame_refl].
  destruct (os_path_exists _ _); [|apply frame_refl].
  destruct (os_unlink _ _); cbn; [frame_close | apply frame_refl].
Qed.

Lemma frame_filepath_to_str {A} file_input (body : string → M A) w :
  (∀ p w1, frame false w1 (snd (body p w1))) →
  frame false w (snd (filepath_to_str file_input body w)).
Proof.
  intros Hbody. unfold filepath_to_str.
  pose proof (frame_filepath_to_str_enter file_input w) as He.
  destruct (filepath_to_str_enter file_input w) as [[temp_file [p|e]] w1];
    cbn in He.
  - pose proof (Hbody p w1) as Hb.
    destruct (body p w1) as [r w2]; cbn in Hb.
    pose proof (frame_filepath_to_str_finally temp_file w2) as Hf.
    destruct (filepath_to_str_finally temp_file w2) as [[u|e'] w3];
      cbn in *; eauto using frame_trans.
  - pose proof (frame_filepath_to_str_finally temp_file w1) as Hf.
    destruct (filepath_to_str_finally temp_file w1) as [[u|e'] w3];
      cbn in *; eauto using frame_trans.
Qed.

(** The body of the [with] statement of [__call__]. *)
Lemma frame_call_body b self temp_path w :
  frame b w
    (snd ((let! document := build_document self temp_path in
           let! _ := set_page_count (Some (length (pages document))) in
           let! renderer := resolve (renderer self) in
           let! rendered := liftR (py_call renderer document) in
           ret rendered) w)).
Proof.
  apply frame_bind; [apply frame_build_document|]. intros document w1 _.
  apply frame_bind; [apply frame_set_page_count|]. intros u w2 _.
  apply frame_bind; [apply frame_resolve|]. intros r w3 _.
  apply frame_bind; [apply frame_liftR|]. intros out w4 _.
  apply frame_ret.
Qed.

Lemma frame_PdfConverter_call self filepath w :
  frame false w (snd (PdfConverter_call self filepath w)).
Proof.
  unfold PdfConverter_call. apply frame_filepath_to_str.
  intros p w1. apply frame_call_body.
Qed.

(** With a path, the [with] statement is its body run on that path. *)
Lemma filepath_to_str_path {A} path (body : string → M A) w :
  filepath_to_str (FilePath path) body w = body path w.
Proof.
  unfold filepath_to_str. cbn. by destruct (body path w) as [r w2].
Qed.







(** The outcome of the cleanup depends on the file system only. *)
Lemma filepath_to_str_finally_fs temp_file w w' :
  w_fs w = w_fs w' →
  fst (filepath_to_str_finally temp_file w)
  = fst (filepath_to_str_finally temp_file w').
Proof.
  intros Hfs. unfold filepath_to_str_finally. rewrite Hfs.
  destruct temp_file as [name|]; [|done].
  destruct (os_path_exists _ _); [|done].
  by destruct (os_unlink _ _).
Qed.


Lemma unlink_fresh_temp fs p data :
  os_path_exists fs p = false →
  p ∉ fs_undeletable fs →
  os_unlink (write_file (write_file fs p []) p data) p = Ok fs.
Proof.
  intros Hex Hdel. unfold os_unlink, write_file. cbn.
  rewrite lookup_insert_eq. rewrite bool_decide_eq_false_2 by done.
  f_equal. destruct fs as [files und]. cbn in *. f_equal.
  apply bool_decide_eq_false in Hex.
  rewrite insert_insert_eq, delete_insert_eq.
  apply delete_id. destruct (files !! p) eqn:E; [|done].
  exfalso. apply Hex. eauto.
Qed.

(** With a buffer, the file the facade creates is gone after the
    statement, when the body leaves the file system alone and the
    operating system lets the file go. *)
Lemma filepath_to_str_bytes {A} data (body : string → M A) w :
  os_path_exists (w_fs w) (tmp_name (w_fs w)) = false →
  tmp_name (w_fs w) ∉ fs_undeletable (w_fs w) →
  (∀ p w1, w_fs (snd (body p w1)) = w_fs w1) →
  w_fs (snd (filepath_to_str (BytesIO data) body w)) = w_fs w.
Proof.
  intros Hfresh Hdel Hbody.
  unfold filepath_to_str, filepath_to_str_enter, NamedTemporaryFile.
  rewrite Hfresh. cbn.
  match goal with
  | |- context [body ?p ?w1] =>
      specialize (Hbody p w1); destruct (body p w1) as [r w2]
  end.
  cbn in Hbody. unfold filepath_to_str_finally. rewrite Hbody.
  assert (Hex : os_path_exists
                  (write_file (write_file (w_fs w) (tmp_name (w_fs w)) [])
                              (tmp_name (w_fs w)) data)
                  (tmp_name (w_fs w)) = true).
  { unfold os_path_exists, write_file. cbn.
    apply bool_decide_eq_true. rewrite lookup_insert_eq. eauto. }
  rewrite Hex, unlink_fresh_temp by done. reflexivity.
Qed.



(** C9.  The cleanup step of the facade can be run again: once it has
    completed, a second run finds no file, raises nothing and changes
    nothing; it does nothing at all when the file is not there.  The
    cleanup clause of [parse_pdf] never raises, the first time or the
    second. *)
Theorem cleanup_idempotent :
  (∀ temp_file w w1,
     filepath_to_str_finally temp_file w = (Ok tt, w1) →
     filepath_to_str_finally temp_file w1 = (Ok tt, w1)) ∧
  (∀ name w,
     os_path_exists (w_fs w) name = false →
     filepath_to_str_finally (Some name) w = (Ok tt, w)) ∧
  (∀ tmp_path w,
     fst (parse_pdf_cleanup tmp_path w) = Ok tt ∧
     parse_pdf_cleanup tmp_path (snd (parse_pdf_cleanup tmp_path w))
     = (Ok tt, snd (parse_pdf_cleanup tmp_path w))).
Proof.
  assert (Hgone : ∀ fs p fs', os_unlink fs p = Ok fs' →
                              os_path_exists fs' p = false).
  { intros fs p fs'. unfold os_unlink, os_path_exists.
    destruct (fs_files fs !! p); [|discriminate].
    case_bool_decide; [discriminate|]. intros [= <-]. cbn.
    apply bool_decide_eq_false. rewrite lookup_delete_eq.
    by intros [? ?]. }
  assert (Hos : ∀ fs p e, os_unlink fs p = Raise e → is_OSError e = true).
  { intros fs p e. unfold os_unlink.
    destruct (fs_files fs !! p); [case_bool_decide|];
      intros [= <-]; reflexivity. }
  split; [|split].
  - intros [name|] w w1; unfold filepath_to_str_finally; [|by intros [= <-]].
    destruct (os_path_exists (w_fs w) name) eqn:Hex.
    + destruct (os_unlink (w_fs w) name) as [fs'|e] eqn:Hun; [|discriminate].
      intros [= <-]. cbn. by rewrite (Hgone _ _ _ Hun).
    + intros [= <-]. by rewrite Hex.
  - intros name w Hex. unfold filepath_to_str_finally. by rewrite Hex.
  - intros tmp_path w.
    assert (H : ∃ w', parse_pdf_cleanup tmp_path w = (Ok tt, w') ∧
                      parse_pdf_cleanup tmp_path w' = (Ok tt, w')).
    { destruct tmp_path as [p|]; [|by exists w].
      unfold parse_pdf_cleanup.
      destruct (negb (String.eqb p "")) eqn:Hp; cbn; [|by exists w].
      destruct (os_path_exists (w_fs w) p) eqn:Hex; cbn;
        [|exists w; by rewrite Hex].
      destruct (os_unlink (w_fs w) p) as [fs'|e] eqn:Hun.
      - eexists. split; [reflexivity|]. cbn.
        by rewrite (Hgone _ _ _ Hun).
      - rewrite (Hos _ _ _ Hun). exists w. split; [done|].
        by rewrite Hex, Hun, (Hos _ _ _ Hun). }
    destruct H as (w' & H1 & H2). rewrite H1. cbn. by rewrite H2.
Qed.


(** ** The constructor and the artifact dictionary *)

Lemma register_overrides_spec l w :
  register_overrides l w =
  (Ok tt, mk_world (w_config w) (w_bag w) (w_fs w) (w_page_count w)
                   (w_log w ++ map registration l)).
Proof.
  revert w. induction l as [|[bt c] l IH]; intros w; cbn.
  - rewrite app_nil_r. by destruct w.
  - unfold bindM, log_event. cbn. rewrite IH. cbn.
    by rewrite <- app_assoc.
Qed.

Lemma pop_if_present {B} key (k : M B) w cfg :
  w_config w = Some cfg →
  (let! has := config_contains key in
   let! _ := (if (has : bool) then config_pop key else ret PyNone) in
   k) w
  = k (mk_world (Some (delete key cfg)) (w_bag w) (w_fs w)
                (w_page_count w) (w_log w)).
Proof.
  intros Hcfg. unfold bindM, config_contains, config_pop, ret.
  rewrite Hcfg. case_bool_decide as Hin.
  - rewrite Hcfg. destruct Hin as [v ->]. reflexivity.
  - rewrite delete_id.
    + destruct w; cbn in *; by subst.
    + destruct (cfg !! key) eqn:E; [|done]. exfalso. apply Hin. eauto.
Qed.

Lemma registration_no_write l :
  Forall (λ ev, is_bag_write ev = false) (map registration l).
Proof.
  apply Forall_forall. intros ev (it & -> & _)%list_elem_of_fmap. done.
Qed.

Lemma registration_before_write bag v l :
  Forall (before_write bag v) (map registration l).
Proof.
  apply Forall_forall. intros ev (it & -> & _)%list_elem_of_fmap. done.
Qed.

(** The service step writes nothing; what it resolves is what it
    returns. *)
Lemma resolve_llm_service_spec llm config w r w' :
  resolve_llm_service llm config w = (r, w') →
  w_config w' = w_config w ∧ w_bag w' = w_bag w ∧ w_fs w' = w_fs w ∧
  w_page_count w' = w_page_count w ∧
  ∃ pre, w_log w' = (w_log w ++ pre)%list ∧
         Forall (λ ev, is_bag_write ev = false) pre ∧
         (∀ v, r = Ok v → Forall (before_write (w_bag w) v) pre) ∧
         (truthy llm = false →
          truthy (default (PyBool false) (config !! "use_llm")) = false →
          r = Ok llm ∧ pre = []).
Proof.
  unfold resolve_llm_service.
  destruct (truthy llm) eqn:Hllm;
    [|destruct (truthy (default (PyBool false) (config !! "use_llm")))
        eqn:Huse].
  - unfold bindM, liftR, resolve, get_world, log_event. cbn.
    destruct (strings_to_classes _) as [cl|e]; cbn.
    2: { intros [= <- <-]. repeat split; try done. exists [].
         rewrite app_nil_r. repeat split; try done. }
    destruct (py_first cl) as [c|e]; cbn.
    2: { intros [= <- <-]. repeat split; try done. exists [].
         rewrite app_nil_r. repeat split; try done. }
    intros [= <- <-]. cbn. repeat split; try done.
    eexists. split; [reflexivity|]. split; [by repeat constructor|].
    split; [|done]. intros v Hv. by repeat constructor.
  - unfold bindM, liftR, resolve, get_world, log_event. cbn.
    intros [= <- <-]. cbn. repeat split; try done.
    eexists. split; [reflexivity|]. split; [by repeat constructor|].
    split; [|done]. intros v Hv. by repeat constructor.
  - intros [= <- <-]. repeat split; try done. exists [].
    rewrite app_nil_r. repeat split; try done.
Qed.

Lemma no_llm_configured_value cfg :
  no_llm_configured cfg →
  default PyNone (cfg !! "llm_service") = PyNone ∧
  truthy (default (PyBool false) (cfg !! "use_llm")) = false.
Proof. intros [[-> | ->] Hu]; done. Qed.

Ltac not_reached :=
  left; cbn; split; [reflexivity|]; split; [intros ? [=]|];
  first [ exists []; split; [by rewrite app_nil_r | apply Forall_nil_2]
        | eexists; split; [rewrite <- ?app_assoc; reflexivity|] ].

Lemma init_with_shape parse processor_list w r w' :
  PdfConverter_init_with parse processor_list w = (r, w') →
  (w_bag w' = w_bag w ∧ (∀ c, r ≠ Ok c) ∧
   ∃ evs, w_log w' = (w_log w ++ evs)%list ∧
          Forall (λ ev, is_bag_write ev = false) evs)
  ∨
  (∃ pre v post,
     w_log w' = (w_log w ++ pre ++ EvBagWrite "llm_service" v :: post)%list ∧
     w_bag w' = <["llm_service" := v]> (w_bag w) ∧
     Forall (before_write (w_bag w) v) pre ∧
     Forall (λ ev, is_bag_write ev = false) post ∧
     (∀ cfg, w_config w = Some cfg → no_llm_configured cfg → v = PyNone) ∧
     (∀ c, r = Ok c → llm_service c = v) ∧
     (∀ cfg, w_config w = Some cfg →
             w_config w' = Some (delete "llm_service" (delete "renderer" cfg)))).
Proof.
  unfold PdfConverter_init_with.
  destruct (w_config w) as [cfg|] eqn:Hcfg.
  2: { unfold bindM at 1. unfold config_get. rewrite Hcfg.
       intros [= <- <-]. not_reached. }
  unfold bindM at 1. unfold config_get at 1. rewrite Hcfg.
  unfold bindM at 1. unfold liftR at 1.
  destruct (parse _) as [rv|e]; [|intros [= <- <-]; not_reached].
  rewrite (pop_if_present _ _ _ cfg Hcfg).
  unfold bindM at 1. unfold config_get at 1. cbn [w_config].
  erewrite pop_if_present by reflexivity.
  cbn [w_config w_bag w_fs w_page_count w_log].
  rewrite lookup_delete_ne by done.
  set (cfg2 := delete "llm_service" (delete "renderer" cfg)).
  assert (Huse : cfg2 !! "use_llm" = cfg !! "use_llm").
  { unfold cfg2. by rewrite !lookup_delete_ne. }
  unfold bindM at 1. unfold get_world at 1.
  unfold bindM at 1. unfold liftR at 1. cbn [w_config].
  destruct (BaseConverter_init _) as [[]|e]; [|intros [= <- <-]; not_reached].
  unfold bindM at 1. rewrite register_overrides_spec.
  cbn [w_config w_bag w_fs w_page_count w_log default].
  set (W := mk_world _ _ _ _ _).
  (* 157-160 *)
  unfold bindM at 1.
  destruct processor_list as [l|]; [unfold liftR at 1|unfold ret at 1];
    [destruct (strings_to_classes _) as [pl|e];
     [|intros [= <- <-]; not_reached; apply registration_no_write]|];
    ( (* 162-165 *)
      unfold bindM at 1;
      destruct (truthy rv); [unfold liftR at 1|unfold ret at 1];
      [destruct (strings_to_classes _) as [rl|e];
       [|intros [= <- <-]; not_reached; apply registration_no_write]|] ).
  (* 170-174 *)
  all: unfold bindM at 1.
  all: destruct (resolve_llm_service _ _ W) as [[v|e] W1] eqn:Hsvc.
  all: apply resolve_llm_service_spec in Hsvc
         as (HWc & HWb & HWf & HWp & pre & HWl & Hpre & Hres & Hnone).
  all: subst W; cbn in HWc, HWb, HWl, Hres, Hnone.
  all: try (intros [= <- <-]; left; split; [done|]; split; [done|];
            exists (map registration override_map ++ pre)%list;
            split; [by rewrite HWl, app_assoc|];
            apply Forall_app; split; [apply registration_no_write|done]).
  all: unfold bindM, bag_write, get_world, log_event, liftR, set_page_count,
         ret; cbn [w_config w_bag w_fs w_page_count w_log].
  all: destruct (initialize_processors _ _ _); intros [= <- <-].
  all: right; exists (map registration override_map ++ pre)%list, v;
       eexists; cbn [w_config w_bag w_fs w_page_count w_log].
  all: split; [rewrite HWl, <- !app_assoc; reflexivity|].
  all: split; [by rewrite HWb|].
  all: split;
       [apply Forall_app; split;
        [apply registration_before_write | by apply Hres]|].
  all: split; [by repeat constructor|].
  all: split; [|split; [by intros c [= <-]|by intros cfg0 [= <-]]].
  all: intros cfg0 [= <-] [Hv Hu]%no_llm_configured_value.
  all: destruct Hnone as [Heq _];
       [by rewrite Hv | by rewrite Huse | congruence].
Qed.

(** When the selector parser returns and the constructor completes, the
    keys [renderer] and [llm_service] are gone from the caller's config
    dictionary (lines 135-141). *)
Lemma constructor_removes_selector_keys parse processor_list w cfg c w' :
  w_config w = Some cfg →
  PdfConverter_init_with parse processor_list w = (Ok c, w') →
  w_config w' = Some (delete "llm_service" (delete "renderer" cfg)).
Proof.
  intros Hcfg Hrun.
  apply init_with_shape in Hrun as [(_ & Hr & _)|(pre & v & post & H)].
  - by destruct (Hr c).
  - destruct H as (_ & _ & _ & _ & _ & _ & Hpop). by apply Hpop.
Qed.


(** The body of the [with] statement of [__call__] gives every stage the
    config dictionary of the state it starts in. *)
Lemma call_body_outcome self temp_path w :
  fst ((let! document := build_document self temp_path in
        let! _ := set_page_count (Some (length (pages document))) in
        let! renderer := resolve (renderer self) in
        let! rendered := liftR (py_call renderer document) in
        ret rendered) w)
  = convert_with_config (w_config w) (w_bag w) (w_fs w) self temp_path.
Proof.
  unfold convert_with_config, build_document, bindM, bindR, resolve, liftR,
    get_world, log_event, set_page_count, ret.
  cbn. frame_cases; reflexivity.
Qed.

(** The outcome of a call whose [with] statement is entered: that of
    the body, unless the cleanup raises. *)
Lemma PdfConverter_call_outcome self file_input w temp_file temp_path w1 :
  filepath_to_str_enter file_input w = (temp_file, Ok temp_path, w1) →
  fst (PdfConverter_call self file_input w) =
  match fst (filepath_to_str_finally temp_file w1) with
  | Ok _ => convert_with_config (w_config w) (w_bag w) (w_fs w1) self temp_path
  | Raise e' => Raise e'
  end.
Proof.
  intros Henter.
  pose proof (frame_filepath_to_str_enter file_input w) as (Hc & Hb & _).
  rewrite Henter in Hc, Hb. cbn in Hc, Hb.
  unfold PdfConverter_call, filepath_to_str. rewrite Henter.
  pose proof (call_body_outcome self temp_path w1) as Hout.
  destruct (frame_call_body true self temp_path w1) as (_ & _ & Hfs & _).
  specialize (Hfs eq_refl).
  match goal with
  | |- context [bindM ?c ?k w1] => destruct (bindM c k w1) as [r w2]
  end.
  cbn in Hout, Hfs.
  pose proof (filepath_to_str_finally_fs temp_file w2 w1 Hfs) as Heq.
  destruct (filepath_to_str_finally temp_file w2) as [[u|e'] w3];
    cbn in Heq; rewrite <- Heq; cbn; [by rewrite Hout, Hc, Hb | done].
Qed.


Lemma filter_no_write l :
  Forall (λ ev, is_bag_write ev = false) l → List.filter is_bag_write l = [].
Proof.
  induction 1 as [|ev l Hev _ IH]; [done|]. cbn. by rewrite Hev.
Qed.

Lemma before_write_no_write bag v l :
  Forall (before_write bag v) l → Forall (λ ev, is_bag_write ev = false) l.
Proof.
  intros H. eapply Forall_impl; [exact H|]. by intros [].
Qed.

Lemma no_write_no_split l pre k v post :
  Forall (λ ev, is_bag_write ev = false) l →
  l ≠ (pre ++ EvBagWrite k v :: post)%list.
Proof.
  intros Hl ->. apply Forall_app in Hl as [_ Hl].
  apply Forall_cons in Hl as [Hl _]. done.
Qed.

(** A log with one write splits around a write in one way only. *)
Lemma one_write_split A k0 v0 B pre k v post :
  Forall (λ ev, is_bag_write ev = false) A →
  Forall (λ ev, is_bag_write ev = false) B →
  (A ++ EvBagWrite k0 v0 :: B)%list = (pre ++ EvBagWrite k v :: post)%list →
  pre = A ∧ k = k0 ∧ v = v0 ∧ post = B.
Proof.
  intros HA HB. revert pre. induction HA as [|a A Ha HA IH]; intros pre.
  - destruct pre as [|x pre]; cbn.
    + by intros [= <- <- <-].
    + intros [= <- Heq]. by apply no_write_no_split in Heq.
  - destruct pre as [|x pre]; cbn.
    + intros [= -> _]. done.
    + intros [= <- Heq]. by destruct (IH _ Heq) as (-> & -> & -> & ->).
Qed.

(** C6.  The constructor writes the ["llm_service"] entry of the
    artifact dictionary at most once, whatever the selector parser does
    ([PdfConverter_init] is the instance with [renderer2cls]); whatever
    is resolved before that write is the LLM service that is written,
    never a processor, builder or renderer; with no [llm_service]
    configured and [use_llm] false the entry is written as [None] or not
    written at all, and is [None] in every converter that is
    constructed.  A conversion call does not write the dictionary. *)
Theorem llm_service_written_once :
  (∀ parse processor_list w,
     ∃ evs,
       w_log (snd (PdfConverter_init_with parse processor_list w))
       = (w_log w ++ evs)%list ∧
       (List.length (List.filter is_bag_write evs) ≤ 1)%nat ∧
       (∀ pre k v post,
          evs = (pre ++ EvBagWrite k v :: post)%list →
          k = "llm_service" ∧
          Forall (before_write (w_bag w) v) pre ∧
          w_bag (snd (PdfConverter_init_with parse processor_list w))
          = <["llm_service" := v]> (w_bag w)) ∧
       (∀ cfg,
          w_config w = Some cfg → no_llm_configured cfg →
          (w_bag (snd (PdfConverter_init_with parse processor_list w))
           = w_bag w ∨
           w_bag (snd (PdfConverter_init_with parse processor_list w))
           = <["llm_service" := PyNone]> (w_bag w)) ∧
          (∀ c,
             fst (PdfConverter_init_with parse processor_list w) = Ok c →
             w_bag (snd (PdfConverter_init_with parse processor_list w))
               !! "llm_service" = Some PyNone ∧
             llm_service c = PyNone))) ∧
  (∀ self filepath w,
     w_bag (snd (PdfConverter_call self filepath w)) = w_bag w ∧
     ∃ evs,
       w_log (snd (PdfConverter_call self filepath w)) = (w_log w ++ evs)%list ∧
       List.filter is_bag_write evs = []).
Proof.
  split.
  - intros parse pl w.
    destruct (PdfConverter_init_with parse pl w) as [r w'] eqn:Hrun.
    cbn [fst snd].
    apply init_with_shape in Hrun
      as [(Hbag & Hr & evs & Hlog & Hevs)
         |(pre & v & post & Hlog & Hbag & Hpre & Hpost & Hnone & Hc & _)].
    + exists evs. split; [done|].
      split; [rewrite filter_no_write by done; cbn; lia|].
      split.
      * intros pre k v post Heq. by apply no_write_no_split in Heq.
      * intros cfg _ _. split; [by left|]. intros c ->. by destruct (Hr c).
    + exists (pre ++ EvBagWrite "llm_service" v :: post)%list.
      split; [done|].
      pose proof (before_write_no_write _ _ _ Hpre) as Hpre'.
      split.
      { rewrite List.filter_app. cbn.
        rewrite !filter_no_write by done. cbn. lia. }
      split.
      * intros pre' k v' post' Heq.
        apply one_write_split in Heq as (-> & -> & -> & ->); done.
      * intros cfg Hcfg Hno. rewrite (Hnone cfg Hcfg Hno) in *.
        split; [by right|]. intros c ->. split; [|by apply Hc].
        rewrite Hbag. apply lookup_insert_eq.
  - intros self filepath w.
    destruct (frame_PdfConverter_call self filepath w)
      as (_ & Hbag & _ & evs & Hlog & Hq).
    split; [done|]. exists evs. split; [done|].
    apply filter_no_write. eapply Forall_impl; [exact Hq|]. by intros ev [].
Qed.

(** ** The processor chain *)

Lemma run_processors_app pre post document :
  run_processors (pre ++ post) document =
  (let* d := run_processors pre document in run_processors post d).
Proof.
  revert document. induction pre as [|p pre IH]; intros document; cbn.
  - reflexivity.
  - destruct (stage_call p document) as [d|e]; cbn; [apply IH|done].
Qed.

Lemma build_document_outcome self filepath w document :
  builders_give self filepath w document →
  fst (build_document self filepath w) =
  run_processors (processor_list self) document.
Proof.
  intros (pc & la & li & oc & pr & d0 & sb &
          Hpc & Hla & Hli & Hoc & Hpr & Hd0 & Hsb & Hd).
  unfold build_document, bindM, resolve, liftR, get_world, log_event, ret.
  cbn. rewrite Hpc. cbn. rewrite Hla. cbn. rewrite Hli. cbn. rewrite Hoc.
  cbn. rewrite Hpr. cbn. rewrite Hd0. cbn. rewrite Hsb. cbn. rewrite Hd.
  cbn. by destruct (run_processors _ _).
Qed.

Lemma filepath_to_str_raise {A} path (body : string → M A) w e :
  fst (body path w) = Raise e →
  fst (filepath_to_str (FilePath path) body w) = Raise e.
Proof. by rewrite filepath_to_str_path. Qed.

(** C3, as amended.  Nothing in the chain tells an LLM-assisted
    processor from a structural one: the chain stops at the first
    processor that raises, whichever kind it is, the processors after
    it are not run, and its exception is the outcome of
    [build_document].  It is the outcome of the conversion call as well,
    for every input on which the conversion is started, unless the
    cleanup of the temporary file made for a buffer raises: the call then
    raises the exception of the cleanup in its place. *)
Theorem processor_failure_aborts :
  (∀ pre p post document document1 e,
     run_processors pre document = Ok document1 →
     stage_call p document1 = Raise e →
     run_processors (pre ++ p :: post) document = Raise e) ∧
  (∀ self filepath w document e,
     builders_give self filepath w document →
     run_processors (processor_list self) document = Raise e →
     fst (build_document self filepath w) = Raise e ∧
     fst (PdfConverter_call self (FilePath filepath) w) = Raise e) ∧
  (∀ self file_input w temp_file temp_path w1 document e,
     filepath_to_str_enter file_input w = (temp_file, Ok temp_path, w1) →
     builders_give self temp_path w1 document →
     run_processors (processor_list self) document = Raise e →
     fst (PdfConverter_call self file_input w)
     = match fst (filepath_to_str_finally temp_file w1) with
       | Ok _ => Raise e
       | Raise e' => Raise e'
       end).
Proof.
  split; [|split].
  - intros pre p post document document1 e Hpre Hp.
    rewrite run_processors_app, Hpre. cbn. by rewrite Hp.
  - intros self filepath w document e Hb Hrun.
    pose proof (build_document_outcome _ _ _ _ Hb) as Hout.
    rewrite Hrun in Hout. split; [done|].
    unfold PdfConverter_call. apply filepath_to_str_raise.
    unfold bindM at 1.
    destruct (build_document self filepath w) as [[d|e'] w1]; cbn in *;
      congruence.
  - intros self file_input w temp_file temp_path w1 document e
      Henter Hb Hrun.
    rewrite (PdfConverter_call_outcome _ _ _ _ _ _ Henter).
    pose proof (frame_filepath_to_str_enter file_input w) as (Hc & Hbag & _).
    rewrite Henter in Hc, Hbag. cbn in Hc, Hbag.
    rewrite <- Hc, <- Hbag, <- call_body_outcome.
    pose proof (build_document_outcome _ _ _ _ Hb) as Hout.
    rewrite Hrun in Hout. unfold bindM at 1.
    destruct (build_document self temp_path w1) as [[d|e'] w2]; cbn in *;
      [discriminate|]. by injection Hout as ->.
Qed.

(** ** Rendering *)

(** [render] reads the artifact dictionary and the config dictionary
    and only adds to the log. *)
Lemma render_run self c document w :
  ∃ evs,
    snd (render self c document w) =
    mk_world (w_config w) (w_bag w) (w_fs w) (w_page_count w)
             (w_log w ++ evs).
Proof.
  unfold render, bindM, resolve, liftR, get_world, log_event, ret. cbn.
  repeat match goal with
         | |- context [match ?r with Ok _ => _ | Raise _ => _ end] =>
             destruct r; cbn
         | |- context [if ?b then _ else _] => destruct b; cbn
         | |- context [let (_, _) := ?x in _] => destruct x; cbn
         end; eauto.
Qed.

Lemma render_result self c document w w1 :
  w_bag w1 = w_bag w → w_config w1 = w_config w →
  fst (render self c document w1) = fst (render self c document w).
Proof.
  intros Hb Hc.
  unfold render, bindM, resolve, liftR, get_world, log_event, ret. cbn.
  rewrite Hb, Hc.
  repeat match goal with
         | |- context [match ?r with Ok _ => _ | Raise _ => _ end] =>
             destruct r; cbn
         | |- context [if ?b then _ else _] => destruct b; cbn
         | |- context [let (_, _) := ?x in _] => destruct x; cbn
         end; eauto.
Qed.

(** The output key of a renderer is one of the three payload keys. *)
Lemma render_key self c document w r :
  fst (render self c document w) = Ok (Some r) →
  (c = PyCls "PageMarkdownRenderer" ∧ output_key r = "page_renders") ∨
  (c = PyCls "ChunkRenderer" ∧ output_key r = "chunks") ∨
  (c = PyCls "MarkdownRenderer" ∧ output_key r = "markdown").
Proof.
  unfold render, bindM, resolve, liftR, get_world, log_event, ret. cbn.
  destruct (resolve_dependencies _ _ _); cbn; [|discriminate].
  destruct c as [| | | | |n|]; cbn; try discriminate.
  destruct (String.eqb n "PageMarkdownRenderer") eqn:E1;
    [apply String.eqb_eq in E1 as ->
    |destruct (String.eqb n "ChunkRenderer") eqn:E2;
     [apply String.eqb_eq in E2 as ->
     |destruct (String.eqb n "MarkdownRenderer") eqn:E3;
      [apply String.eqb_eq in E3 as ->|]]].
  all: cbn.
  all: try (destruct (py_call _ _) as [o|]; cbn; [|discriminate];
            destruct (unpack3 o) as [[[p i] m]|]; cbn; [|discriminate];
            intros [= <-]; cbn; eauto).
  discriminate.
Qed.

(** When every renderer of the list gives an output, the loop stores
    them in order. *)
Lemma render_loop_outputs self document w l rs :
  Forall2 (λ c r, fst (render self c document w) = Ok (Some r)) l rs →
  ∀ out_render metadata w1,
    w_bag w1 = w_bag w → w_config w1 = w_config w →
    ∃ w2,
      render_loop self l document out_render metadata w1 =
      (Ok (fold_left store_output rs out_render,
           last (metadata :: map (Some ∘ output_metadata) rs) ≫= id), w2).
Proof.
  induction 1 as [|c r l rs Hc _ IH]; intros out md w1 Hb Hcfg.
  - cbn. eauto.
  - cbn [render_loop]. unfold bindM at 1.
    pose proof (render_result self c document w w1 Hb Hcfg) as Hr.
    destruct (render_run self c document w1) as [evs Hw].
    destruct (render self c document w1) as [r1 w1'] eqn:Hrun.
    cbn [fst snd] in Hr, Hw. rewrite Hr, Hc. subst w1'.
    destruct r as [[[key rendered] images] md'].
    edestruct (IH (<["images":=OutImages images]>
                     (<[key:=OutPayload rendered]> out)) (Some md'))
      as [w2 Hw2]; [| |rewrite Hw2]; cbn [w_bag w_config]; [done..|].
    by exists w2.
Qed.

Lemma fold_store_images rs r out_render :
  fold_left store_output (rs ++ [r]) out_render !! "images"
  = Some (OutImages (output_images r)).
Proof.
  rewrite fold_left_app. cbn. destruct r as [[[k p] i] m]. cbn.
  apply lookup_insert_eq.
Qed.

Lemma fold_store_page_structure rs out_render :
  Forall (λ r, output_key r ≠ "page_structure") rs →
  fold_left store_output rs out_render !! "page_structure"
  = out_render !! "page_structure".
Proof.
  intros Hrs. revert out_render.
  induction Hrs as [|[[[k p] i] m] rs Hk _ IH]; intros out; [done|].
  cbn. rewrite IH. cbn in Hk. by rewrite !lookup_insert_ne.
Qed.

Lemma last_metadata (rs : list render_output) r md :
  last (md :: map (Some ∘ output_metadata) (rs ++ [r])) ≫= id
  = Some (output_metadata r).
Proof.
  rewrite map_app. cbn [map].
  rewrite app_comm_cons. by rewrite last_snoc.
Qed.

(** C4, as amended.  With a list of renderers that all give an output,
    the [images] entry of the render result is the images mapping of
    the last renderer as a whole (the earlier renderers' images are
    replaced, not merged into it), and the [metadata] entry is the
    metadata of the last renderer. *)
Theorem images_and_metadata_of_last_renderer :
  ∀ self document w l rs r,
    renderer self = PyList l →
    Forall2 (λ c r, fst (render self c document w) = Ok (Some r))
            l (rs ++ [r]) →
    ∃ out w',
      render_document self document w = (Ok out, w') ∧
      out !! "images" = Some (OutImages (output_images r)) ∧
      out !! "metadata" = Some (OutMetadata (output_metadata r)).
Proof.
  intros self document w l rs r Hl Hrs.
  unfold render_document. rewrite Hl. unfold bindM at 1.
  edestruct (render_loop_outputs _ _ _ _ _ Hrs) as [w2 ->]; [done..|].
  rewrite last_metadata. unfold bindM, liftR, ret. cbn.
  eexists _, _. split; [reflexivity|]. split.
  - rewrite lookup_insert_ne by done. apply fold_store_images.
  - apply lookup_insert_eq.
Qed.


(** ** The page structure *)

Lemma page_structure_other ps (m : gmap Z (list string)) i :
  i ∉ map page_id ps →
  fold_left (λ m p, <[page_id p := page_entry p]> m) ps m !! i = m !! i.
Proof.
  revert m. induction ps as [|q ps IH]; intros m Hi; [done|].
  cbn in *. apply not_elem_of_cons in Hi as [Hq Hi].
  rewrite IH by done. by rewrite lookup_insert_ne.
Qed.

Lemma page_structure_lookup document p :
  NoDup (map page_id (pages document)) →
  p ∈ pages document →
  page_structure document !! page_id p = Some (page_entry p).
Proof.
  unfold page_structure. generalize (∅ : gmap Z (list string)).
  induction (pages document) as [|q ps IH]; intros m Hnd Hp.
  - by apply elem_of_nil in Hp.
  - cbn in *. apply NoDup_cons in Hnd as [Hq Hnd].
    apply elem_of_cons in Hp as [->|Hp].
    + rewrite page_structure_other by done. apply lookup_insert_eq.
    + by apply IH.
Qed.

Lemma render_document_page_structure self document w out w' :
  render_document self document w = (Ok out, w') →
  out !! "page_structure" = Some (OutPageStructure (page_structure document)).
Proof.
  unfold render_document.
  destruct (renderer self) as [| | | |l|c|]; try discriminate.
  - unfold bindM at 1.
    set (out0 := ({["page_structure" := _]} : gmap string out_value)).
    assert (H0 : out0 !! "page_structure"
                 = Some (OutPageStructure (page_structure document)))
      by apply lookup_singleton_eq.
    generalize dependent out0. generalize (@None pyval). revert w.
    induction l as [|c l IH]; intros w md out0 H0.
    + cbn. destruct md; cbn; [|discriminate].
      intros [= <- <-]. by rewrite lookup_insert_ne.
    + cbn [render_loop]. unfold bindM at 1.
      destruct (render self c document w) as [[[r|]|e] w1] eqn:Hr;
        try discriminate.
      destruct r as [[[k p] i] m].
      apply (f_equal fst) in Hr. cbn [fst] in Hr.
      apply render_key in Hr. apply IH.
      rewrite lookup_insert_ne by done.
      rewrite lookup_insert_ne; [done|].
      cbn [output_key] in Hr. destruct Hr as [[_ ->]|[[_ ->]|[_ ->]]]; done.
  - destruct (is_renderer_class c); [|discriminate].
    unfold bindM.
    destruct (render self (PyCls c) document w) as [[[r|]|e] w1] eqn:Hr;
      try discriminate.
    destruct r as [[[k p] i] m]. intros [= <- <-].
    apply (f_equal fst) in Hr. cbn [fst] in Hr. apply render_key in Hr.
    rewrite !lookup_insert_ne by done.
    rewrite lookup_insert_ne; [apply lookup_singleton_eq|].
    cbn [output_key] in Hr. destruct Hr as [[_ ->]|[[_ ->]|[_ ->]]]; done.
Qed.

(** C5, as amended.  In a document whose page ids are distinct, the
    [page_structure] entry of a page is [[]] when the page is flagged
    ignored for output, and otherwise the string forms of the page's
    structure identities, in order (so it is empty exactly when the
    structure is); every identity in the entry resolves to a block of
    the page when the page's structure does; and the render result holds
    these entries whatever the renderers give. *)
Theorem page_structure_entries :
  ∀ document p,
    NoDup (map page_id (pages document)) →
    p ∈ pages document →
    page_structure document !! page_id p = Some (page_entry p) ∧
    (ignore_for_output p = true → page_entry p = []) ∧
    (ignore_for_output p = false →
     page_entry p = map str_identity (structure p)) ∧
    (structure_resolves p → Forall (resolves p) (page_entry p)) ∧
    (∀ self w out w',
       render_document self document w = (Ok out, w') →
       out !! "page_structure"
       = Some (OutPageStructure (page_structure document))).
Proof.
  intros document p Hnd Hp.
  split; [by apply page_structure_lookup|].
  unfold page_entry.
  split; [by intros ->|]. split; [by intros ->|]. split.
  - intros Hres. destruct (ignore_for_output p); [constructor|].
    apply Forall_forall. intros s (id & -> & Hid)%list_elem_of_fmap.
    destruct (Hres id Hid) as (b & Hb & <-). by exists b.
  - intros self w out w'. apply render_document_page_structure.
Qed.

(** With the two default renderers, the render result has the five
    keys [page_structure], [page_renders], [chunks], [images] and
    [metadata], and no other. *)
Lemma render_document_default_keys self document w r1 r2 :
  renderer self = PyList default_renderers →
  fst (render self (PyCls "PageMarkdownRenderer") document w) = Ok (Some r1) →
  fst (render self (PyCls "ChunkRenderer") document w) = Ok (Some r2) →
  ∃ out w',
    render_document self document w = (Ok out, w') ∧
    dom out = ({["page_structure"; "page_renders"; "chunks"; "images";
                 "metadata"]} : gset string).
Proof.
  intros Hl H1 H2.
  pose proof (render_key _ _ _ _ _ H1) as K1.
  pose proof (render_key _ _ _ _ _ H2) as K2.
  destruct K1 as [[_ K1]|[[[=] _]|[[=] _]]].
  destruct K2 as [[[=] _]|[[_ K2]|[[=] _]]].
  unfold render_document. rewrite Hl. unfold bindM at 1.
  edestruct (render_loop_outputs self document w default_renderers [r1; r2])
    as [w2 ->]; [by repeat constructor|done..|].
  destruct r1 as [[[k1 p1] i1] m1], r2 as [[[k2 p2] i2] m2].
  cbn in K1, K2. subst k1 k2. cbn. unfold bindM, liftR, ret. cbn.
  eexists _, _. split; [reflexivity|].
  rewrite !dom_insert_L, dom_singleton_L. set_solver.
Qed.

(** An exception raised by the cleanup of the temporary file is the
    outcome of the [with] statement, whatever the body gave. *)
Lemma cleanup_failure_replaces_outcome {A} data (body : string → M A)
    w p w1 r w2 e :
  filepath_to_str_enter (BytesIO data) w = (Some p, Ok p, w1) →
  body p w1 = (r, w2) →
  os_path_exists (w_fs w2) p = true →
  os_unlink (w_fs w2) p = Raise e →
  filepath_to_str (BytesIO data) body w = (Raise e, w2).
Proof.
  intros Henter Hbody Hex Hun. unfold filepath_to_str.
  rewrite Henter, Hbody. unfold filepath_to_str_finally.
  by rewrite Hex, Hun.
Qed.

(** * Further properties of the orchestrator *)

Lemma PdfConverter_init_outcome fuel processor_list w :
  PdfConverter_init (S fuel) processor_list w =
  (Raise (match w_config w with
          | Some _ => UnboundLocalError "renderer"
          | None => AttributeError "'NoneType' object has no attribute 'get'"
          end), w).
Proof.
  unfold PdfConverter_init, PdfConverter_init_with, bindM, config_get, liftR.
  by destruct (w_config w).
Qed.

(** ** The constructor *)

(** X1.  The constructor never builds a converter: with a config
    dictionary it stops in [renderer2cls] at line 133, with [config=None]
    at line 132; in both cases nothing has been changed: neither the
    config dictionary, nor the artifact dictionary, nor the log. *)
Theorem constructor_always_raises :
  ∀ fuel processor_list w,
    PdfConverter_init (S fuel) processor_list w =
    (Raise (match w_config w with
            | Some _ => UnboundLocalError "renderer"
            | None => AttributeError "'NoneType' object has no attribute 'get'"
            end), w).
Proof. exact PdfConverter_init_outcome. Qed.

(** ** The temporary file *)

(** X2.  With a buffer, when tempfile's name is free and the file can be
    removed, the body runs on a file that holds the buffer's bytes, the
    outcome of the [with] statement is the outcome of the body, result or
    exception, and the file system is afterwards what it was before. *)
Theorem buffer_outcome_is_body_outcome :
  ∀ A data (body : string → M A) w,
    os_path_exists (w_fs w) (tmp_name (w_fs w)) = false →
    tmp_name (w_fs w) ∉ fs_undeletable (w_fs w) →
    (∀ p w1, w_fs (snd (body p w1)) = w_fs w1) →
    ∃ w1,
      filepath_to_str_enter (BytesIO data) w
      = (Some (tmp_name (w_fs w)), Ok (tmp_name (w_fs w)), w1) ∧
      fs_files (w_fs w1) !! tmp_name (w_fs w) = Some data ∧
      fst (filepath_to_str (BytesIO data) body w)
      = fst (body (tmp_name (w_fs w)) w1) ∧
      w_fs (snd (filepath_to_str (BytesIO data) body w)) = w_fs w.
Proof.
  intros A data body w Hfresh Hdel Hbody.
  eexists. split.
  { unfold filepath_to_str_enter, NamedTemporaryFile. rewrite Hfresh.
    reflexivity. }
  split; [cbn; apply lookup_insert_eq|].
  split; [|by apply filepath_to_str_bytes].
  unfold filepath_to_str, filepath_to_str_enter, NamedTemporaryFile.
  rewrite Hfresh. cbn.
  match goal with
  | |- context [body ?p ?w1] =>
      specialize (Hbody p w1); destruct (body p w1) as [r w2]
  end.
  cbn in Hbody. unfold filepath_to_str_finally. rewrite Hbody.
  assert (Hex : os_path_exists
                  (write_file (write_file (w_fs w) (tmp_name (w_fs w)) [])
                              (tmp_name (w_fs w)) data)
                  (tmp_name (w_fs w)) = true).
  { unfold os_path_exists, write_file. cbn.
    apply bool_decide_eq_true. rewrite lookup_insert_eq. eauto. }
  rewrite Hex, unlink_fresh_temp by done. reflexivity.
Qed.


(** ** Building the document *)

(** X4.  [build_document] returns a document exactly when every builder
    step and then every processor of the chain succeeds; the document is
    then the one the last processor left.  There is no partial result. *)
Theorem build_document_succeeds_iff :
  ∀ self filepath w document,
    fst (build_document self filepath w) = Ok document ↔
    ∃ document0,
      builders_give self filepath w document0 ∧
      run_processors (processor_list self) document0 = Ok document.
Proof.
  intros self filepath w document. split.
  - unfold build_document, bindM, resolve, liftR, get_world, log_event, ret.
    cbn.
    destruct (provider_from_filepath _ _) as [pc|] eqn:Hpc; cbn; [|done].
    destruct (resolve_dependencies _ _ (layout_builder_class self))
      as [la|] eqn:Hla; cbn; [|done].
    destruct (resolve_dependencies _ _ (PyCls "LineBuilder"))
      as [li|] eqn:Hli; cbn; [|done].
    destruct (resolve_dependencies _ _ (PyCls "OcrBuilder"))
      as [oc|] eqn:Hoc; cbn; [|done].
    destruct (provider_new _ _ _ _) as [pr|] eqn:Hpr; cbn; [|done].
    destruct (DocumentBuilder_call _ _ _ _ _ _) as [d0|] eqn:Hd0; cbn; [|done].
    destruct (resolve_dependencies _ _ (PyCls "StructureBuilder"))
      as [sb|] eqn:Hsb; cbn; [|done].
    destruct (stage_call sb d0) as [d1|] eqn:Hd1; cbn; [|done].
    destruct (run_processors _ d1) as [d2|] eqn:Hd2; cbn; [|done].
    intros [= <-]. exists d1. split; [|done].
    by exists pc, la, li, oc, pr, d0, sb.
  - intros (d0 & Hb & Hrun). by rewrite (build_document_outcome _ _ _ _ Hb).
Qed.

(** X5.  The chain runs the processors in list order, each on the
    document the one before it left: the chain over [pre ++ post] is the
    chain over [pre] followed, if that succeeds, by the chain over [post]
    on its result; with a failure in [pre], no processor of [post] is
    run. *)
Theorem processor_chain_in_order :
  ∀ pre post document,
    run_processors (pre ++ post) document =
    match run_processors pre document with
    | Ok document1 => run_processors post document1
    | Raise e => Raise e
    end.
Proof.
  intros pre post document. revert document.
  induction pre as [|p pre IH]; intros document; cbn; [done|].
  destruct (stage_call p document); cbn; [apply IH|done].
Qed.

(** ** Rendering *)

Lemma frame_render b self c document w :
  frame b w (snd (render self c document w)).
Proof.
  unfold render.
  apply frame_bind; [apply frame_resolve|]. intros inst w1 _.
  apply frame_bind; [apply frame_liftR|]. intros n w2 _.
  repeat match goal with
         | |- context [if ?c then _ else _] => destruct c
         end.
  4: apply frame_ret.
  all: apply frame_bind; [apply frame_liftR|]; intros out w3 _.
  all: apply frame_bind; [apply frame_liftR|]; intros [[p i] m] w4 _.
  all: apply frame_ret.
Qed.

Lemma frame_render_loop b self l document :
  ∀ out md w, frame b w (snd (render_loop self l document out md w)).
Proof.
  induction l as [|c l IH]; intros out md w; [apply frame_refl|].
  cbn [render_loop]. apply frame_bind; [apply frame_render|].
  intros [[[[k p] i] m]|] w1 _; [apply IH|apply frame_refl].
Qed.

Lemma frame_render_document b self document w :
  frame b w (snd (render_document self document w)).
Proof.
  unfold render_document.
  destruct (renderer self) as [| | | |l|c|]; try apply frame_refl.
  - apply frame_bind; [apply frame_render_loop|]. intros r w1 _.
    apply frame_bind; [apply frame_liftR|]. intros md w2 _. apply frame_ret.
  - destruct (is_renderer_class c); [|apply frame_refl].
    apply frame_bind; [apply frame_render|].
    intros [[[[k p] i] m]|] w1 _; apply frame_refl.
Qed.

(** X6.  Building and rendering read the config dictionary, the artifact
    dictionary and the file system and write none of them, whether they
    succeed or raise. *)
Theorem building_and_rendering_write_nothing :
  ∀ self filepath document w,
    (w_config (snd (build_document self filepath w)) = w_config w ∧
     w_bag (snd (build_document self filepath w)) = w_bag w ∧
     w_fs (snd (build_document self filepath w)) = w_fs w) ∧
    (w_config (snd (render_document self document w)) = w_config w ∧
     w_bag (snd (render_document self document w)) = w_bag w ∧
     w_fs (snd (render_document self document w)) = w_fs w).
Proof.
  intros self filepath document w. split.
  - destruct (frame_build_document true self filepath w) as (Hc & Hb & Hf & _).
    auto.
  - destruct (frame_render_document true self document w) as (Hc & Hb & Hf & _).
    auto.
Qed.

(** X7.  With an empty list of renderers [render_document] raises
    [UnboundLocalError]: line 258 reads [metadata], which only the loop
    body assigns. *)
Theorem empty_renderer_list_raises :
  ∀ self document w,
    renderer self = PyList [] →
    render_document self document w = (Raise (UnboundLocalError "metadata"), w).
Proof.
  intros self document w Hl. unfold render_document. by rewrite Hl.
Qed.

(** X8.  What [render_document] does with a [self.renderer] that is not a
    list: a class that is not a renderer class raises the [ValueError] of
    line 267; a value that is no class at all never reaches that line,
    the [issubclass] test of line 260 raises [TypeError] on it. *)
Theorem renderer_of_wrong_kind :
  ∀ self document w,
    (∀ c, renderer self = PyCls c → is_renderer_class c = false →
          render_document self document w
          = (Raise (ValueError
               "Renderer must be a BaseRenderer subclass or a list of BaseRenderer subclasses."),
             w)) ∧
    ((∀ l, renderer self ≠ PyList l) → (∀ c, renderer self ≠ PyCls c) →
     render_document self document w
     = (Raise (TypeError "issubclass() arg 1 must be a class"), w)).
Proof.
  intros self document w. split.
  - intros c Hc Hr. unfold render_document. by rewrite Hc, Hr.
  - intros Hl Hc. unfold render_document.
    destruct (renderer self) as [| | | |l|c|]; try done.
    + by destruct (Hl l).
    + by destruct (Hc c).
Qed.

(** X9.  A renderer class whose name is none of [PageMarkdownRenderer],
    [ChunkRenderer] and [MarkdownRenderer] is resolved, but [render]
    returns [None] for it without calling it, and [render_document]
    fails to unpack that: a list that starts with such a class, or such a
    class alone, raises [TypeError]. *)
Theorem unknown_renderer_class :
  ∀ self n inst document w,
    String.eqb n "PageMarkdownRenderer" = false →
    String.eqb n "ChunkRenderer" = false →
    String.eqb n "MarkdownRenderer" = false →
    resolve_dependencies (w_bag w) (w_config w) (PyCls n) = Ok inst →
    fst (render self (PyCls n) document w) = Ok None ∧
    (∀ l, renderer self = PyList (PyCls n :: l) →
          fst (render_document self document w)
          = Raise (TypeError "cannot unpack non-iterable NoneType object")) ∧
    (renderer self = PyCls n → is_renderer_class n = true →
     fst (render_document self document w)
     = Raise (TypeError "cannot unpack non-iterable NoneType object")).
Proof.
  intros self n inst document w H1 H2 H3 Hres.
  assert (Hr : ∃ w1, render self (PyCls n) document w = (Ok None, w1)).
  { unfold render, bindM, resolve, liftR, get_world, log_event, ret. cbn.
    rewrite Hres. cbn. rewrite H1, H2, H3. eauto. }
  destruct Hr as [w1 Hr]. split; [by rewrite Hr|]. split.
  - intros l Hl. unfold render_document. rewrite Hl.
    unfold bindM at 1. cbn [render_loop]. unfold bindM at 1.
    by rewrite Hr.
  - intros Hc Hcls. unfold render_document. rewrite Hc, Hcls.
    unfold bindM. by rewrite Hr.
Qed.

Lemma fold_store_dom rs (out_render : gmap string out_value) :
  dom (fold_left store_output rs out_render) =
  dom out_render ∪ list_to_set (map output_key rs) ∪
  (match rs with [] => ∅ | _ => {["images"]} end).
Proof.
  revert out_render. induction rs as [|[[[k p] i] m] rs IH]; intros out.
  - cbn. set_solver.
  - cbn [fold_left store_output]. rewrite IH, !dom_insert_L. cbn.
    destruct rs; set_solver.
Qed.

Lemma fold_store_payload rs1 r rs2 (out_render : gmap string out_value) :
  output_key r ≠ "images" →
  Forall (λ r', output_key r' ≠ output_key r) rs2 →
  fold_left store_output (rs1 ++ r :: rs2) out_render !! output_key r
  = Some (OutPayload (output_payload r)).
Proof.
  intros Hk Hrs2. rewrite fold_left_app. cbn [fold_left].
  generalize (fold_left store_output rs1 out_render). intros out.
  assert (H0 : store_output out r !! output_key r
               = Some (OutPayload (output_payload r))).
  { destruct r as [[[k p] i] m]. cbn in *.
    rewrite lookup_insert_ne by done. apply lookup_insert_eq. }
  revert H0. generalize (store_output out r). clear out.
  induction Hrs2 as [|[[[k' p'] i'] m'] rs2 Hk' _ IH]; intros out H0; [done|].
  cbn [fold_left]. apply IH. cbn in *.
  rewrite lookup_insert_ne by done. by rewrite lookup_insert_ne.
Qed.

(** X10.  With a list of renderers that all give an output, the render
    result has the keys [page_structure], [images], [metadata] and the
    output keys of the renderers, and no other; the payload under an
    output key is that of the last renderer of the list with that key (a
    renderer named twice is run twice and its first payload is
    replaced). *)
Theorem render_result_keys_and_payloads :
  ∀ self document w l rs r,
    renderer self = PyList l →
    Forall2 (λ c r, fst (render self c document w) = Ok (Some r))
            l (rs ++ [r]) →
    ∃ out w',
      render_document self document w = (Ok out, w') ∧
      dom out = ({["page_structure"; "images"; "metadata"]} : gset string)
                ∪ list_to_set (map output_key (rs ++ [r])) ∧
      (∀ rs1 r0 rs2,
         (rs ++ [r])%list = (rs1 ++ r0 :: rs2)%list →
         Forall (λ r', output_key r' ≠ output_key r0) rs2 →
         out !! output_key r0 = Some (OutPayload (output_payload r0))).
Proof.
  intros self document w l rs r Hl Hrs.
  assert (Hkeys : Forall (λ r0, output_key r0 ≠ "images" ∧
                                output_key r0 ≠ "metadata") (rs ++ [r])).
  { clear Hl. induction Hrs as [|c r0 l' rs' Hc _ IH]; constructor; [|done].
    apply render_key in Hc as [[_ ->]|[[_ ->]|[_ ->]]]; done. }
  unfold render_document. rewrite Hl. unfold bindM at 1.
  edestruct (render_loop_outputs _ _ _ _ _ Hrs) as [w2 ->]; [done..|].
  rewrite last_metadata. unfold bindM, liftR, ret. cbn [fst snd load_local].
  eexists _, _. split; [reflexivity|]. split.
  - rewrite dom_insert_L, fold_store_dom, dom_singleton_L.
    destruct (rs ++ [r])%list eqn:E; [by destruct rs|]. set_solver.
  - intros rs1 r0 rs2 Heq Hrs2.
    assert (Hr0 : output_key r0 ≠ "images" ∧ output_key r0 ≠ "metadata").
    { rewrite Heq in Hkeys. apply Forall_app in Hkeys as [_ Hkeys].
      by apply Forall_cons in Hkeys as [? _]. }
    destruct Hr0 as [Hi Hm].
    rewrite lookup_insert_ne by done. rewrite Heq.
    by apply fold_store_payload.
Qed.

(** X11.  [page_structure] has one entry for each page id that occurs in
    the document, and no other; when several pages share an id, the
    entry is that of the last of them. *)
Theorem page_structure_domain :
  ∀ document,
    dom (page_structure document)
    = (list_to_set (map page_id (pages document)) : gset Z) ∧
    (∀ pre p post,
       pages document = (pre ++ p :: post)%list →
       page_id p ∉ map page_id post →
       page_structure document !! page_id p = Some (page_entry p)).
Proof.
  intros document. unfold page_structure. split.
  - assert (H : ∀ ps (m : gmap Z (list string)),
               dom (fold_left (λ m p, <[page_id p := page_entry p]> m) ps m)
               = dom m ∪ list_to_set (map page_id ps)).
    { induction ps as [|q ps IH]; intros m; cbn; [set_solver|].
      rewrite IH, dom_insert_L. set_solver. }
    rewrite H, dom_empty_L. set_solver.
  - intros pre p post -> Hp. rewrite fold_left_app. cbn [fold_left].
    rewrite page_structure_other by done. apply lookup_insert_eq.
Qed.

(** ** The conversion call *)

(** X12.  On a path, once [build_document] has returned a document,
    [self.page_count] is the number of its pages when the call ends,
    also when resolving or calling the renderer then fails; when
    [build_document] raises, [self.page_count] keeps the value it had. *)
Theorem page_count_after_call :
  ∀ self filepath w,
    (∀ document,
       fst (build_document self filepath w) = Ok document →
       w_page_count (snd (PdfConverter_call self (FilePath filepath) w))
       = Some (List.length (pages document))) ∧
    (∀ e,
       fst (build_document self filepath w) = Raise e →
       w_page_count (snd (PdfConverter_call self (FilePath filepath) w))
       = w_page_count w).
Proof.
  intros self filepath w.
  assert (Hpc : w_page_count (snd (build_document self filepath w))
                = w_page_count w).
  { unfold build_document, bindM, resolve, liftR, get_world, log_event, ret.
    cbn. frame_cases; reflexivity. }
  unfold PdfConverter_call. rewrite filepath_to_str_path.
  split.
  - intros document Hb. unfold bindM at 1.
    destruct (build_document self filepath w) as [[d|e'] w1]; cbn in *;
      [|discriminate].
    injection Hb as ->.
    unfold bindM, set_page_count, resolve, liftR, get_world, log_event, ret.
    cbn. frame_cases. all: reflexivity.
  - intros e Hb. unfold bindM at 1.
    destruct (build_document self filepath w) as [[d|e'] w1]; cbn in *;
      [discriminate|done].
Qed.

(** X13.  On a path, once [build_document] has returned a document, the
    outcome of the call is what calling the resolved [self.renderer] on
    the document gives: the resolver's exception, a [TypeError] when what
    it returns cannot be called (a list, in particular), and otherwise
    the return value of that object as it is; [render_document] and
    [cleanup_text] have no part in it. *)
Theorem call_outcome :
  ∀ self filepath w document,
    fst (build_document self filepath w) = Ok document →
    fst (PdfConverter_call self (FilePath filepath) w) =
    match resolve_dependencies (w_bag w) (w_config w) (renderer self) with
    | Ok (PyObj c) => object_call (PyObj c) document
    | Ok (PyCls c) => object_call (PyCls c) document
    | Ok v => Raise (TypeError ("'" ++ type_name v ++
                                "' object is not callable"))
    | Raise e => Raise e
    end.
Proof.
  intros self filepath w document Hb.
  destruct (frame_build_document true self filepath w) as (Hc & Hbag & _).
  unfold PdfConverter_call. rewrite filepath_to_str_path.
  unfold bindM at 1.
  destruct (build_document self filepath w) as [[d|e'] w1]; cbn in *;
    [|discriminate].
  injection Hb as ->.
  unfold bindM, set_page_count, resolve, liftR, get_world, log_event, ret.
  cbn. rewrite Hc, Hbag.
  destruct (resolve_dependencies _ _ _) as [[]|]; cbn; try reflexivity.
  all: by destruct (object_call _ _).
Qed.

(** ** The request handler *)

Lemma parse_pdf_cleanup_none fs :
  parse_pdf_cleanup None (fs_world fs) = (Ok tt, fs_world fs).
Proof. reflexivity. Qed.

Lemma parse_pdf_cleanup_never_raises tmp_path w :
  ∃ w', parse_pdf_cleanup tmp_path w = (Ok tt, w').
Proof.
  destruct tmp_path as [p|]; [|by exists w]. unfold parse_pdf_cleanup.
  destruct (negb (String.eqb p "") && os_path_exists (w_fs w) p);
    [|by exists w].
  unfold os_unlink. destruct (fs_files (w_fs w) !! p); [|by exists w].
  case_bool_decide; [by exists w|]. eexists. reflexivity.
Qed.

Lemma convert_download_raises fuel o tmp_path fs :
  convert_download (S fuel) o tmp_path fs =
  (Raise (match create_model_dict with
          | Ok _ => UnboundLocalError "renderer"
          | Raise e => e
          end), fs).
Proof.
  unfold convert_download. destruct create_model_dict as [bag|e]; [|done].
  by rewrite PdfConverter_init_outcome.
Qed.

(** The two outcomes of the [except Exception] clause. *)
Lemma except_Exception_cases e :
  (is_Exception e = true ∧
   except_Exception e = Ok (mk_response (ErrorContent (exn_msg e)) 500)) ∨
  (is_Exception e = false ∧ except_Exception e = Raise e).
Proof. unfold except_Exception. destruct (is_Exception e); eauto. Qed.


(** X14.  The handler never answers with status 200: whatever the
    request, the network and the file system, it either returns a
    response with status 400 or 500 whose content is an error message,
    or lets through an exception that does not derive from [Exception]
    and that [except Exception] therefore does not catch.  The only path
    to status 200 constructs a [PdfConverter], and the constructor
    raises. *)
Theorem parse_pdf_never_succeeds :
  ∀ fuel request fs,
    (∃ response fs' error,
       parse_pdf (S fuel) request fs = (Ok response, fs') ∧
       content response = ErrorContent error ∧
       (status_code response = 400 ∨ status_code response = 500)%Z) ∨
    (∃ e fs',
       parse_pdf (S fuel) request fs = (Raise e, fs') ∧
       is_Exception e = false).
Proof.
  intros fuel request fs. unfold parse_pdf.
  assert (Htry : ∃ tmp_path r fs1,
             parse_pdf_try (S fuel) request fs = (tmp_path, r, fs1) ∧
             ((∃ e, r = Raise e) ∨
              (∃ error, r = Ok (mk_response (ErrorContent error) 400)))).
  { unfold parse_pdf_try.
    destruct (read_options _) as [o|e]; [|by eauto 10].
    destruct (String.eqb _ ""); [by eauto 10|].
    unfold download.
    destruct (requests_get _) as [resp|e].
    2: { destruct (is_RequestException e); eauto 10. }
    destruct (http_raise_for_status resp) as [[]|e].
    2: { destruct (is_RequestException e); eauto 10. }
    destruct (_ && _); [by eauto 10|].
    destruct (save_download resp fs) as [[p|e] fs1]; [|by eauto 10].
    rewrite convert_download_raises. eauto 10. }
  destruct Htry as (tmp_path & r & fs1 & -> & Hr).
  destruct (parse_pdf_cleanup_never_raises tmp_path (fs_world fs1))
    as [w' ->].
  destruct Hr as [[e ->]|[error ->]].
  - destruct (except_Exception_cases e) as [[_ ->]|[He ->]].
    + left. eexists _, _, _. eauto.
    + right. eauto.
  - left. eexists _, _, _. eauto.
Qed.


(** X16.  With readable options and an empty URL the response is status
    400, ["file_url is required"]; the file system is left as it is. *)
Theorem missing_url_gives_400 :
  ∀ fuel request fs o,
    read_options (optional_config request) = Ok o →
    file_url request = "" →
    parse_pdf fuel request fs
    = (Ok (mk_response (ErrorContent "file_url is required") 400), fs).
Proof.
  intros fuel request fs o Ho Hurl. unfold parse_pdf, parse_pdf_try.
  by rewrite Ho, Hurl.
Qed.

(** X17.  A download that fails with a [RequestException], from
    [requests.get] or from [raise_for_status], gives status 400 with the
    exception's message after ["Failed to download file from URL: "]; any
    other exception that derives from [Exception] gives status 500 with
    its message; an exception that does not is raised by the handler.  No
    temporary file is created in any of these cases. *)
Theorem failed_download_response :
  ∀ fuel request fs o e,
    read_options (optional_config request) = Ok o →
    file_url request ≠ "" →
    (requests_get (file_url request) = Raise e ∨
     ∃ response, requests_get (file_url request) = Ok response ∧
                 http_raise_for_status response = Raise e) →
    parse_pdf fuel request fs
    = (if is_RequestException e
       then Ok (mk_response
                  (ErrorContent ("Failed to download file from URL: " ++
                                 exn_msg e)) 400)
       else if is_Exception e
       then Ok (mk_response (ErrorContent (exn_msg e)) 500)
       else Raise e, fs).
Proof.
  intros fuel request fs o e Ho Hurl Hdl. unfold parse_pdf, parse_pdf_try.
  rewrite Ho. apply String.eqb_neq in Hurl. rewrite Hurl. unfold download.
  destruct Hdl as [->|(resp & -> & ->)];
    by destruct (is_RequestException e).
Qed.

(** X18.  A download is taken for a PDF when its content type contains
    [application/pdf] or the lower-cased URL ends in [.pdf]; when neither
    holds the response is status 400, ["URL does not point to a PDF
    file"], and no temporary file is created. *)
Theorem not_a_pdf_gives_400 :
  ∀ fuel request fs o response,
    read_options (optional_config request) = Ok o →
    file_url request ≠ "" →
    requests_get (file_url request) = Ok response →
    http_raise_for_status response = Ok tt →
    contains "application/pdf" (default "" (http_content_type response))
      = false →
    ends_with ".pdf" (str_lower (file_url request)) = false →
    parse_pdf fuel request fs
    = (Ok (mk_response (ErrorContent "URL does not point to a PDF file") 400),
       fs).
Proof.
  intros fuel request fs o response Ho Hurl Hget Hst Hct Hsuf.
  unfold parse_pdf, parse_pdf_try.
  rewrite Ho. apply String.eqb_neq in Hurl. rewrite Hurl. unfold download.
  by rewrite Hget, Hst, Hct, Hsuf.
Qed.

Lemma save_download_fresh response fs :
  os_path_exists fs (tmp_name fs) = false →
  save_download response fs =
  (match http_stream_error response with
   | Some e => Raise e
   | None => Ok (tmp_name fs)
   end,
   write_file (write_file fs (tmp_name fs) []) (tmp_name fs)
              (concat (http_chunks response))).
Proof.
  intros Hfresh. unfold save_download, NamedTemporaryFile. cbn.
  rewrite Hfresh. cbn. by destruct (http_stream_error response).
Qed.

Lemma parse_pdf_reaches_converter fuel request fs o response :
  read_options (optional_config request) = Ok o →
  downloads request response →
  http_stream_error response = None →
  os_path_exists fs (tmp_name fs) = false →
  parse_pdf_try (S fuel) request fs =
  (Some (tmp_name fs),
   Raise (match create_model_dict with
          | Ok _ => UnboundLocalError "renderer"
          | Raise e => e
          end),
   write_file (write_file fs (tmp_name fs) []) (tmp_name fs)
              (concat (http_chunks response))).
Proof.
  intros Ho (Hurl & Hget & Hst & Hpdf) Hstream Hfresh.
  unfold parse_pdf_try. rewrite Ho.
  apply String.eqb_neq in Hurl. rewrite Hurl. unfold download.
  rewrite Hget, Hst.
  assert (Hcheck : negb (contains "application/pdf"
                           (default "" (http_content_type response))) &&
                   negb (ends_with ".pdf" (str_lower (file_url request)))
                   = false).
  { destruct Hpdf as [-> | ->]; [done|]. apply andb_false_r. }
  rewrite Hcheck, save_download_fresh, Hstream by done.
  by rewrite convert_download_raises.
Qed.

(** X19.  When the download succeeds, is taken for a PDF and is saved
    under a free temporary name that can be removed again, the
    construction of the converter fails and the temporary file is gone
    afterwards: the file system is what it was before the request.  When
    the model dictionary loads, the response is status 500 with the
    message of the [UnboundLocalError] of [renderer2cls]; when loading it
    raises, the response is status 500 with that exception's message if
    the exception derives from [Exception], and otherwise the handler
    raises it. *)
Theorem conversion_fails_and_cleans_up :
  ∀ fuel request fs o response,
    read_options (optional_config request) = Ok o →
    downloads request response →
    http_stream_error response = None →
    os_path_exists fs (tmp_name fs) = false →
    tmp_name fs ≠ "" →
    tmp_name fs ∉ fs_undeletable fs →
    (∀ bag,
       create_model_dict = Ok bag →
       parse_pdf (S fuel) request fs
       = (Ok (mk_response
                (ErrorContent (exn_msg (UnboundLocalError "renderer"))) 500),
          fs)) ∧
    (∀ e,
       create_model_dict = Raise e →
       parse_pdf (S fuel) request fs
       = (if is_Exception e
          then Ok (mk_response (ErrorContent (exn_msg e)) 500)
          else Raise e, fs)).
Proof.
  intros fuel request fs o response Ho Hdl Hstream Hfresh Hname Hdel.
  pose proof (parse_pdf_reaches_converter fuel request fs o response
                Ho Hdl Hstream Hfresh) as Htry.
  assert (Hex : os_path_exists
                  (write_file (write_file fs (tmp_name fs) []) (tmp_name fs)
                              (concat (http_chunks response)))
                  (tmp_name fs) = true).
  { unfold os_path_exists, write_file. cbn.
    apply bool_decide_eq_true. rewrite lookup_insert_eq. eauto. }
  apply String.eqb_neq in Hname.
  split.
  - intros bag Hbag. unfold parse_pdf, parse_pdf_cleanup.
    rewrite Htry, Hbag. cbn [w_fs fs_world]. rewrite Hname. cbn [negb andb].
    rewrite Hex, unlink_fresh_temp by done. reflexivity.
  - intros e He. unfold parse_pdf, parse_pdf_cleanup.
    rewrite Htry, He. cbn [w_fs fs_world]. rewrite Hname. cbn [negb andb].
    rewrite Hex, unlink_fresh_temp by done. reflexivity.
Qed.

(** X20.  When the temporary file cannot be removed, the outcome is the
    same as when it can: the [OSError] of the cleanup is swallowed (lines
    122-123) and does not replace the response or the exception of the
    handler; the temporary file, holding the download, stays. *)
Theorem cleanup_refusal_keeps_response :
  ∀ fuel request fs o response,
    read_options (optional_config request) = Ok o →
    downloads request response →
    http_stream_error response = None →
    os_path_exists fs (tmp_name fs) = false →
    tmp_name fs ∈ fs_undeletable fs →
    fs_files (snd (parse_pdf (S fuel) request fs)) !! tmp_name fs
    = Some (concat (http_chunks response)) ∧
    (∀ bag,
       create_model_dict = Ok bag →
       fst (parse_pdf (S fuel) request fs)
       = Ok (mk_response
               (ErrorContent (exn_msg (UnboundLocalError "renderer"))) 500)) ∧
    (∀ e,
       create_model_dict = Raise e →
       fst (parse_pdf (S fuel) request fs)
       = if is_Exception e
         then Ok (mk_response (ErrorContent (exn_msg e)) 500)
         else Raise e).
Proof.
  intros fuel request fs o response Ho Hdl Hstream Hfresh Hdel.
  pose proof (parse_pdf_reaches_converter fuel request fs o response
                Ho Hdl Hstream Hfresh) as Htry.
  set (fs1 := write_file (write_file fs (tmp_name fs) []) (tmp_name fs)
                         (concat (http_chunks response))) in *.
  assert (Hfile : fs_files fs1 !! tmp_name fs
                  = Some (concat (http_chunks response))).
  { cbn. apply lookup_insert_eq. }
  assert (Hclean : parse_pdf_cleanup (Some (tmp_name fs)) (fs_world fs1)
                   = (Ok tt, fs_world fs1)).
  { unfold parse_pdf_cleanup. cbn [w_fs fs_world].
    destruct (negb (tmp_name fs =? "") && os_path_exists _ _)%bool; [|done].
    unfold os_unlink. rewrite Hfile. cbn [fs_undeletable write_file fs1].
    by rewrite bool_decide_eq_true_2 by done. }
  unfold parse_pdf. rewrite Htry, Hclean. cbn [fst snd w_fs fs_world].
  split; [done|].
  split; [by intros bag ->|by intros e ->].
Qed.

(** X21.  When the download breaks while it is being saved, the
    temporary file is not removed: [tmp_path] is assigned only after the
    last chunk (line 92), so the cleanup finds nothing to remove and the
    file stays with the chunks received so far.  The response is status
    500 with the stream's exception when that exception derives from
    [Exception]; otherwise the handler raises it. *)
Theorem broken_download_leaves_temp_file :
  ∀ fuel request fs o response e,
    read_options (optional_config request) = Ok o →
    downloads request response →
    http_stream_error response = Some e →
    os_path_exists fs (tmp_name fs) = false →
    ∃ fs',
      parse_pdf fuel request fs
      = (if is_Exception e
         then Ok (mk_response (ErrorContent (exn_msg e)) 500)
         else Raise e, fs') ∧
      fs_files fs' !! tmp_name fs = Some (concat (http_chunks response)).
Proof.
  intros fuel request fs o response e Ho (Hurl & Hget & Hst & Hpdf)
    Hstream Hfresh.
  unfold parse_pdf, parse_pdf_try. rewrite Ho.
  apply String.eqb_neq in Hurl. rewrite Hurl. unfold download.
  rewrite Hget, Hst.
  assert (Hcheck : negb (contains "application/pdf"
                           (default "" (http_content_type response))) &&
                   negb (ends_with ".pdf" (str_lower (file_url request)))
                   = false).
  { destruct Hpdf as [-> | ->]; [done|]. apply andb_false_r. }
  rewrite Hcheck, save_download_fresh, Hstream by done.
  eexists. split; [reflexivity|]. cbn. apply lookup_insert_eq.
Qed.

(** X22.  The config dictionary the handler gives the converter has the
    eight keys of lines 98-105 whatever the request's options are: the
    [llm_service] that lines 55-57 compute, [output_path] and any other
    option of the request ([page_range], for one) are not passed on.  Its
    [renderer] is the request's, or ["pageMarkdown+chunks"] when the
    request has none, so the converter never sees a config without
    [renderer] from the handler; [use_llm] defaults to [False]. *)
Theorem converter_config_keys :
  ∀ optional_config o,
    read_options (Some optional_config) = Ok o →
    dom (converter_config o)
    = ({["use_llm"; "ollama_base_url"; "ollama_model"; "disable_ocr";
         "output_json"; "ignore_TOC"; "ignore_before_TOC"; "renderer"]}
       : gset string) ∧
    (∀ key, key ∉ ["use_llm"; "ollama_base_url"; "ollama_model";
                   "disable_ocr"; "output_json"; "ignore_TOC";
                   "ignore_before_TOC"; "renderer"] →
            converter_config o !! key = None) ∧
    converter_config o !! "renderer"
    = Some (default (PyStr "pageMarkdown+chunks") (optional_config !! "renderer")) ∧
    converter_config o !! "use_llm"
    = Some (default (PyBool false) (optional_config !! "use_llm")).
Proof.
  intros oc o Ho. unfold converter_config.
  split; [rewrite !dom_insert_L, dom_singleton_L; set_solver|].
  split.
  { intros key Hkey. rewrite !not_elem_of_cons in Hkey.
    destruct Hkey as (? & ? & ? & ? & ? & ? & ? & ? & _).
    rewrite !lookup_insert_ne by done. by apply lookup_singleton_ne. }
  unfold read_options, dict_get in Ho. cbn in Ho.
  destruct (py_lower _); cbn in Ho; [|discriminate].
  injection Ho as <-. cbn. split; [apply lookup_insert_eq|].
  rewrite !lookup_insert_ne by done. apply lookup_singleton_eq.
Qed.
End Orchestrator.

(** * Examples on the concrete environment *)

(** C2: the selector ["pdf2html"] is not reported by a
    [ConfigurationError] naming it; the parser fails on its first
    statement with an [UnboundLocalError] about a local variable, and so
    does the constructor given that selector. *)
Lemma unknown_token_not_rejected :
  "pdf2html" ∈ selector_tokens "pdf2html" ∧
  recognised_token "pdf2html" = false ∧
  renderer2cls 4 (PyStr "pdf2html") = Raise (UnboundLocalError "renderer") ∧
  ¬ rejected_naming (renderer2cls 4 (PyStr "pdf2html")) "pdf2html" ∧
  fst (PdfConverter_init (env := steady_env) 4 None
         (sample_world {["renderer" := PyStr "pdf2html"]} sample_fs))
  = Raise (UnboundLocalError "renderer").
Proof.
  split; [vm_compute; apply list_elem_of_here|].
  split; [reflexivity|]. split; [reflexivity|]. split; [|reflexivity].
  intros (e & He & Hclass & _). vm_compute in He.
  injection He as <-. discriminate Hclass.
Qed.

(** C3: in a chain whose only failing processor is the LLM-assisted
    table processor, the failure of that processor ends the chain and
    the conversion: the policy of skipping it does not hold. *)
Lemma llm_processor_failure_is_fatal :
  is_llm_processor (PyObj "LLMTableProcessor") = true ∧
  stage_call (Collaborators := flaky_env)
    (PyObj "LLMTableProcessor") sample_document
  = Raise (mk_exn "TimeoutError" "LLM service timed out") ∧
  fst (PdfConverter_call (env := flaky_env) default_converter
         (FilePath "one_page.pdf") (sample_world no_llm_config sample_fs))
  = Raise (mk_exn "TimeoutError" "LLM service timed out") ∧
  ¬ llm_failures_skipped (env := flaky_env).
Proof.
  split; [reflexivity|]. split; [reflexivity|]. split; [reflexivity|].
  intros Hskip.
  destruct (Hskip [PyObj "OrderProcessor"; PyObj "LLMTableProcessor";
                   PyObj "TextProcessor"] sample_document) as [d Hd].
  - intros p d e Hp Hfail.
    destruct p as [| | | | | |n]; try discriminate Hfail.
    cbn in Hfail. unfold flaky_llm_stage in Hfail.
    destruct (String.eqb n "LLMTableProcessor") eqn:E; [|discriminate].
    apply String.eqb_eq in E as ->. reflexivity.
  - discriminate Hd.
Qed.

Lemma processor_failure_aborts_witness :
  fst (PdfConverter_call (env := flaky_env) default_converter
         (BytesIO sample_pdf) (sample_world no_llm_config sample_fs))
  = match
      fst (filepath_to_str_finally (Some "/tmp/tmpq3x8.pdf")
             (snd (filepath_to_str_enter (env := flaky_env)
                     (BytesIO sample_pdf)
                     (sample_world no_llm_config sample_fs))))
    with
    | Ok _ => Raise (mk_exn "TimeoutError" "LLM service timed out")
    | Raise e' => Raise e'
    end.
Proof.
  apply (proj2 (proj2 (processor_failure_aborts (env := flaky_env)))
           default_converter (BytesIO sample_pdf)
           (sample_world no_llm_config sample_fs)
           (Some "/tmp/tmpq3x8.pdf") "/tmp/tmpq3x8.pdf"
           (snd (filepath_to_str_enter (env := flaky_env)
                   (BytesIO sample_pdf)
                   (sample_world no_llm_config sample_fs)))
           sample_document).
  - reflexivity.
  - exists (PyCls "PdfProvider"), (PyObj "LayoutBuilder"), (PyObj "LineBuilder"),
      (PyObj "OcrBuilder"), sample_pdf, sample_document,
      (PyObj "StructureBuilder").
    repeat split; reflexivity.
  - reflexivity.
Defined.

(** C4: with the two default renderers, whose images have different
    keys, the [images] entry of the render result is the second
    renderer's mapping; the first renderer's picture, which the merged
    mapping holds, is not in it. *)
Lemma earlier_images_are_lost :
  ∃ out w' r1 r2,
    fst (render (env := steady_env) default_converter
           (PyCls "PageMarkdownRenderer") sample_document
           (sample_world no_llm_config sample_fs)) = Ok (Some r1) ∧
    fst (render (env := steady_env) default_converter
           (PyCls "ChunkRenderer") sample_document
           (sample_world no_llm_config sample_fs)) = Ok (Some r2) ∧
    render_document (env := steady_env) default_converter sample_document
      (sample_world no_llm_config sample_fs) = (Ok out, w') ∧
    out !! "images" = Some (OutImages chunk_images) ∧
    merged_images [r1; r2] !! "_page_0_Picture_1.jpeg"
      = Some (PyStr "picture") ∧
    chunk_images !! "_page_0_Picture_1.jpeg" = None ∧
    out !! "images" ≠ Some (OutImages (merged_images [r1; r2])).
Proof.
  eexists _, _, _, _.
  split; [vm_compute; reflexivity|]. split; [vm_compute; reflexivity|].
  split; [vm_compute; reflexivity|]. split; [vm_compute; reflexivity|].
  split; [vm_compute; reflexivity|]. split; [vm_compute; reflexivity|].
  intros H. apply (f_equal (fun o => match o with
                                     | Some (OutImages i) =>
                                         i !! "_page_0_Picture_1.jpeg"
                                     | _ => None
                                     end)) in H.
  vm_compute in H. discriminate H.
Qed.

Lemma images_and_metadata_of_last_renderer_witness :
  ∃ out w',
    render_document (env := steady_env) default_converter sample_document
      (sample_world no_llm_config sample_fs) = (Ok out, w') ∧
    out !! "images" = Some (OutImages chunk_images) ∧
    out !! "metadata" = Some (OutMetadata (PyStr "chunk metadata")).
Proof.
  apply (images_and_metadata_of_last_renderer (env := steady_env)
           default_converter sample_document
           (sample_world no_llm_config sample_fs) default_renderers
           [("page_renders", PyList [PyStr "# Title"], page_images,
             PyStr "page metadata")]
           ("chunks", PyList [PyStr "Title"; PyStr "Body"], chunk_images,
            PyStr "chunk metadata")).
  - reflexivity.
  - repeat constructor.
Defined.

(** C5: a page with no blocks that is not flagged as ignored has the
    entry [[]]; the entry is neither that of an ignored page nor a
    non-empty list. *)
Lemma blank_page_entry_is_empty :
  NoDup (map page_id (pages blank_document)) ∧
  structure_resolves blank_page ∧
  ignore_for_output blank_page = false ∧
  page_structure (env := steady_env) blank_document !! page_id blank_page
  = Some [] ∧
  ¬ entry_as_specified (env := steady_env) blank_page [].
Proof.
  split; [repeat constructor; by intros ?%elem_of_nil|].
  split; [by intros id ?%elem_of_nil|].
  split; [reflexivity|]. split; [reflexivity|].
  intros [[Hign _]|[Hne _]]; [discriminate Hign | by apply Hne].
Qed.

Lemma page_structure_entries_witness :
  page_structure (env := steady_env) sample_document !! 0%Z
  = Some ["/page/0/SectionHeader/0"; "/page/0/Text/1"] ∧
  Forall (resolves (env := steady_env) sample_page)
    ["/page/0/SectionHeader/0"; "/page/0/Text/1"].
Proof.
  destruct (page_structure_entries (env := steady_env) sample_document
              sample_page) as (Hentry & _ & _ & Hres & _).
  - repeat constructor. by intros ?%elem_of_nil.
  - apply list_elem_of_here.
  - split; [exact Hentry|]. apply Hres.
    intros id Hid. cbn in Hid.
    apply elem_of_cons in Hid as [->|Hid];
      [|apply elem_of_cons in Hid as [->|Hid]].
    + eexists. split; [apply list_elem_of_here|reflexivity].
    + eexists. split; [apply list_elem_of_further, list_elem_of_here|reflexivity].
    + by apply elem_of_nil in Hid.
Defined.

(** C6 at a constructor whose selector parser returns: with [use_llm]
    false and no service configured, the entry is left alone or written
    as [None], and is [None] in the converter that is built. *)
Lemma llm_service_written_once_witness :
  (w_bag (snd (PdfConverter_init_with (env := steady_env)
                 (fun _ => Ok PyNone) None
                 (sample_world no_llm_config sample_fs)))
   = w_bag (sample_world no_llm_config sample_fs) ∨
   w_bag (snd (PdfConverter_init_with (env := steady_env)
                 (fun _ => Ok PyNone) None
                 (sample_world no_llm_config sample_fs)))
   = <["llm_service" := PyNone]>
       (w_bag (sample_world no_llm_config sample_fs))) ∧
  w_bag (snd (PdfConverter_init_with (env := steady_env)
                (fun _ => Ok PyNone) None
                (sample_world no_llm_config sample_fs)))
    !! "llm_service" = Some PyNone.
Proof.
  destruct (proj1 (llm_service_written_once (env := steady_env))
              (fun _ => Ok PyNone) None
              (sample_world no_llm_config sample_fs))
    as (evs & _ & _ & _ & Hnone).
  destruct (Hnone no_llm_config) as [Hbag Hok].
  - reflexivity.
  - split; [left|]; reflexivity.
  - split; [exact Hbag|].
    eapply Hok. vm_compute. reflexivity.
Defined.

(** C9 on a temporary file that exists: the second run of the cleanup
    raises nothing. *)
Lemma cleanup_idempotent_witness :
  filepath_to_str_finally (Some "/tmp/tmpq3x8.pdf")
    (sample_world no_llm_config (mk_fs ∅ ∅))
  = (Ok tt, sample_world no_llm_config (mk_fs ∅ ∅)).
Proof.
  apply (proj1 cleanup_idempotent (Some "/tmp/tmpq3x8.pdf")
           (sample_world no_llm_config
              (mk_fs {["/tmp/tmpq3x8.pdf" := sample_pdf]} ∅))).
  vm_compute. reflexivity.
Defined.





(** C1: from a config without [renderer] the constructor raises in the
    selector parser, so there is no converter and no render result; on
    the converter the constructor is written to build, the call hands the
    list of renderers to the resolver and calls what comes back, a list,
    instead of calling [render_document]; [render_document] on that
    converter and a one-page document does give the five keys, with one
    [page_structure] entry. *)
Theorem default_conversion_gives_no_result :
  fst (PdfConverter_init (env := steady_env) 4 None
         (sample_world no_llm_config sample_fs))
  = Raise (UnboundLocalError "renderer") ∧
  fst (PdfConverter_call (env := steady_env) default_converter
         (FilePath "one_page.pdf") (sample_world no_llm_config sample_fs))
  = Raise (TypeError "'list' object is not callable") ∧
  ∃ out w' ps,
    render_document (env := steady_env) default_converter sample_document
      (sample_world no_llm_config sample_fs) = (Ok out, w') ∧
    dom out = ({["page_structure"; "page_renders"; "chunks"; "images";
                 "metadata"]} : gset string) ∧
    out !! "page_structure" = Some (OutPageStructure ps) ∧
    size ps = 1.
Proof.
  split; [reflexivity|]. split; [reflexivity|].
  destruct (render_document_default_keys (env := steady_env)
              default_converter sample_document
              (sample_world no_llm_config sample_fs)
              ("page_renders", PyList [PyStr "# Title"], page_images,
               PyStr "page metadata")
              ("chunks", PyList [PyStr "Title"; PyStr "Body"], chunk_images,
               PyStr "chunk metadata"))
    as (out & w' & Hrun & Hdom); [reflexivity..|].
  exists out, w', (page_structure (env := steady_env) sample_document).
  split; [exact Hrun|]. split; [exact Hdom|].
  split; [by eapply render_document_page_structure|].
  vm_compute. reflexivity.
Qed.

(** C8: a buffer is converted on a file system that lets the temporary
    file be created but not removed.  The conversion itself succeeds (it
    does so on a file system without that restriction), but the call
    raises the [PermissionError] of the cleanup instead of returning the
    result, and the temporary file is still there; when the conversion
    fails, the cleanup's exception replaces the conversion's.  The cleanup
    clause of [parse_pdf] on the same file raises nothing. *)
Theorem cleanup_failure_replaces_result :
  fst (PdfConverter_call (env := steady_env) markdown_converter
         (BytesIO sample_pdf) (sample_world no_llm_config sample_fs))
  = Ok (RTriple (PyStr "# Title ") ∅ (PyStr "markdown metadata")) ∧
  fst (PdfConverter_call (env := steady_env) markdown_converter
         (BytesIO sample_pdf) (sample_world no_llm_config sticky_fs))
  = Raise (mk_exn "PermissionError" "/tmp/tmpq3x8.pdf") ∧
  os_path_exists
    (w_fs (snd (PdfConverter_call (env := steady_env) markdown_converter
                  (BytesIO sample_pdf) (sample_world no_llm_config sticky_fs))))
    "/tmp/tmpq3x8.pdf" = true ∧
  fst (PdfConverter_call (env := flaky_env) default_converter
         (BytesIO sample_pdf) (sample_world no_llm_config sample_fs))
  = Raise (mk_exn "TimeoutError" "LLM service timed out") ∧
  fst (PdfConverter_call (env := flaky_env) default_converter
         (BytesIO sample_pdf) (sample_world no_llm_config sticky_fs))
  = Raise (mk_exn "PermissionError" "/tmp/tmpq3x8.pdf") ∧
  fst (parse_pdf_cleanup (Some "/tmp/tmpq3x8.pdf")
         (snd (PdfConverter_call (env := steady_env) markdown_converter
                 (BytesIO sample_pdf) (sample_world no_llm_config sticky_fs))))
  = Ok tt.
Proof. repeat split; vm_compute; reflexivity. Qed.

(** * Examples for the further properties *)

Lemma buffer_outcome_is_body_outcome_witness :
  ∃ w1,
    filepath_to_str_enter (env := steady_env) (BytesIO sample_pdf)
      (sample_world no_llm_config sample_fs)
    = (Some "/tmp/tmpq3x8.pdf", Ok "/tmp/tmpq3x8.pdf", w1) ∧
    fs_files (w_fs w1) !! "/tmp/tmpq3x8.pdf" = Some sample_pdf ∧
    fst (filepath_to_str (env := steady_env) (BytesIO sample_pdf)
           (fun p => ret p) (sample_world no_llm_config sample_fs))
    = fst (ret "/tmp/tmpq3x8.pdf" w1) ∧
    w_fs (snd (filepath_to_str (env := steady_env) (BytesIO sample_pdf)
                 (fun p => ret p) (sample_world no_llm_config sample_fs)))
    = sample_fs.
Proof.
  apply (buffer_outcome_is_body_outcome (env := steady_env) string sample_pdf
           (fun p => ret p) (sample_world no_llm_config sample_fs)).
  - reflexivity.
  - cbn. apply not_elem_of_empty.
  - reflexivity.
Defined.


Lemma build_document_succeeds_iff_witness :
  fst (build_document (env := steady_env) default_converter "one_page.pdf"
         (sample_world no_llm_config sample_fs)) = Ok sample_document.
Proof.
  apply (proj2 (build_document_succeeds_iff (env := steady_env)
                  default_converter "one_page.pdf"
                  (sample_world no_llm_config sample_fs) sample_document)).
  exists sample_document. split; [|reflexivity].
  exists (PyCls "PdfProvider"), (PyObj "LayoutBuilder"), (PyObj "LineBuilder"),
    (PyObj "OcrBuilder"), sample_pdf, sample_document,
    (PyObj "StructureBuilder").
  repeat split; reflexivity.
Defined.

Lemma empty_renderer_list_raises_witness :
  render_document (env := steady_env)
    (mk_converter [] (PyList []) PyNone [] (PyCls "LayoutBuilder"))
    sample_document (sample_world no_llm_config sample_fs)
  = (Raise (UnboundLocalError "metadata"),
     sample_world no_llm_config sample_fs).
Proof.
  apply (empty_renderer_list_raises (env := steady_env)). reflexivity.
Defined.

Lemma renderer_of_wrong_kind_witness :
  render_document (env := steady_env)
    (mk_converter [] (PyCls "DebugProcessor") PyNone [] (PyCls "LayoutBuilder"))
    sample_document (sample_world no_llm_config sample_fs)
  = (Raise (ValueError
       "Renderer must be a BaseRenderer subclass or a list of BaseRenderer subclasses."),
     sample_world no_llm_config sample_fs) ∧
  render_document (env := steady_env)
    (mk_converter [] PyNone PyNone [] (PyCls "LayoutBuilder"))
    sample_document (sample_world no_llm_config sample_fs)
  = (Raise (TypeError "issubclass() arg 1 must be a class"),
     sample_world no_llm_config sample_fs).
Proof.
  split.
  - apply (proj1 (renderer_of_wrong_kind (env := steady_env) _ _ _)
             "DebugProcessor"); reflexivity.
  - apply (proj2 (renderer_of_wrong_kind (env := steady_env) _ _ _));
      intros ?; discriminate.
Defined.

Lemma unknown_renderer_class_witness :
  fst (render (env := steady_env) default_converter (PyCls "JSONRenderer")
         sample_document (sample_world no_llm_config sample_fs)) = Ok None ∧
  fst (render_document (env := steady_env)
         (mk_converter [] (PyList [PyCls "JSONRenderer"; PyCls "ChunkRenderer"])
                       PyNone [] (PyCls "LayoutBuilder"))
         sample_document (sample_world no_llm_config sample_fs))
  = Raise (TypeError "cannot unpack non-iterable NoneType object").
Proof.
  split.
  - apply (unknown_renderer_class (env := steady_env) default_converter
             "JSONRenderer" (PyObj "JSONRenderer") sample_document
             (sample_world no_llm_config sample_fs)); reflexivity.
  - eapply (proj1 (proj2 (unknown_renderer_class (env := steady_env) _
                            "JSONRenderer" (PyObj "JSONRenderer")
                            sample_document
                            (sample_world no_llm_config sample_fs)
                            eq_refl eq_refl eq_refl eq_refl)));
      reflexivity.
Defined.

Lemma render_result_keys_and_payloads_witness :
  ∃ out w',
    render_document (env := steady_env) default_converter sample_document
      (sample_world no_llm_config sample_fs) = (Ok out, w') ∧
    dom out = ({["page_structure"; "images"; "metadata"]} : gset string)
              ∪ {["page_renders"; "chunks"]} ∧
    out !! "page_renders" = Some (OutPayload (PyList [PyStr "# Title"])).
Proof.
  destruct (render_result_keys_and_payloads (env := steady_env)
              default_converter sample_document
              (sample_world no_llm_config sample_fs) default_renderers
              [("page_renders", PyList [PyStr "# Title"], page_images,
                PyStr "page metadata")]
              ("chunks", PyList [PyStr "Title"; PyStr "Body"], chunk_images,
               PyStr "chunk metadata"))
    as (out & w' & Hrun & Hdom & Hpay).
  - reflexivity.
  - repeat constructor.
  - exists out, w'. split; [exact Hrun|]. split.
    + rewrite Hdom. cbn. set_solver.
    + apply (Hpay [] ("page_renders", PyList [PyStr "# Title"], page_images,
                      PyStr "page metadata")
                  [("chunks", PyList [PyStr "Title"; PyStr "Body"],
                    chunk_images, PyStr "chunk metadata")]).
      * reflexivity.
      * repeat constructor. discriminate.
Defined.

Lemma page_structure_domain_witness :
  page_structure (env := steady_env) twin_document !! 0%Z
  = Some ["/page/0/SectionHeader/0"; "/page/0/Text/1"].
Proof.
  apply (proj2 (page_structure_domain (env := steady_env) twin_document)
           [blank_page] sample_page []).
  - reflexivity.
  - cbn. apply not_elem_of_nil.
Defined.

Lemma page_count_after_call_witness :
  w_page_count (snd (PdfConverter_call (env := steady_env) default_converter
                       (FilePath "one_page.pdf")
                       (sample_world no_llm_config sample_fs)))
  = Some 1.
Proof.
  apply (proj1 (page_count_after_call (env := steady_env) default_converter
                  "one_page.pdf" (sample_world no_llm_config sample_fs))
           sample_document).
  reflexivity.
Defined.

Lemma call_outcome_witness :
  fst (PdfConverter_call (env := steady_env) markdown_converter
         (FilePath "one_page.pdf") (sample_world no_llm_config sample_fs))
  = Ok (RTriple (PyStr "# Title ") ∅ (PyStr "markdown metadata")).
Proof.
  rewrite (call_outcome (env := steady_env) markdown_converter "one_page.pdf"
             (sample_world no_llm_config sample_fs) sample_document);
    reflexivity.
Defined.


Lemma missing_url_gives_400_witness :
  parse_pdf (env := steady_env) (net := good_network) 4
    (mk_request "" (Some ∅)) sample_fs
  = (Ok (mk_response (ErrorContent "file_url is required") 400), sample_fs).
Proof.
  eapply (missing_url_gives_400 (env := steady_env) (net := good_network));
    reflexivity.
Defined.

Lemma failed_download_response_witness :
  parse_pdf (env := steady_env) (net := unreachable_network) 4
    sample_request sample_fs
  = (Ok (mk_response
           (ErrorContent
              "Failed to download file from URL: Failed to establish a new connection: https://cdn.example.com/one_page.PDF")
           400),
     sample_fs) ∧
  parse_pdf (env := steady_env) (net := interrupted_network) 4
    sample_request sample_fs
  = (Raise (mk_exn "KeyboardInterrupt" ""), sample_fs).
Proof.
  split.
  - apply (failed_download_response (env := steady_env)
             (net := unreachable_network) 4 sample_request sample_fs
             (mk_options (PyStr "http://ollama-keda.mobiusdtaas.ai")
                (PyStr "llama3.2:latest") (PyBool false)
                (PyStr "marker.services.ollama.OllamaService") (PyBool true)
                (PyBool true) (PyBool true) (PyBool true)
                (PyStr "pageMarkdown+chunks") (PyStr "./"))
             (mk_exn "requests.exceptions.ConnectionError"
                "Failed to establish a new connection: https://cdn.example.com/one_page.PDF")).
    + reflexivity.
    + discriminate.
    + left. reflexivity.
  - apply (failed_download_response (env := steady_env)
             (net := interrupted_network) 4 sample_request sample_fs
             (mk_options (PyStr "http://ollama-keda.mobiusdtaas.ai")
                (PyStr "llama3.2:latest") (PyBool false)
                (PyStr "marker.services.ollama.OllamaService") (PyBool true)
                (PyBool true) (PyBool true) (PyBool true)
                (PyStr "pageMarkdown+chunks") (PyStr "./"))
             (mk_exn "KeyboardInterrupt" "")).
    + reflexivity.
    + discriminate.
    + left. reflexivity.
Defined.

Lemma not_a_pdf_gives_400_witness :
  parse_pdf (env := steady_env) (net := html_network) 4
    (mk_request "https://example.com/index.html" (Some ∅)) sample_fs
  = (Ok (mk_response (ErrorContent "URL does not point to a PDF file") 400),
     sample_fs).
Proof.
  eapply (not_a_pdf_gives_400 (env := steady_env) (net := html_network)).
  - reflexivity.
  - discriminate.
  - reflexivity.
  - reflexivity.
  - reflexivity.
  - reflexivity.
Defined.


Lemma conversion_fails_and_cleans_up_witness :
  parse_pdf (env := steady_env) (net := good_network) 4 sample_request
    sample_fs
  = (Ok (mk_response
           (ErrorContent (exn_msg (UnboundLocalError "renderer"))) 500),
     sample_fs).
Proof.
  destruct (conversion_fails_and_cleans_up (env := steady_env)
              (net := good_network) 3 sample_request sample_fs
              (mk_options (PyStr "http://ollama-keda.mobiusdtaas.ai")
                 (PyStr "llama3.2:latest") (PyBool false)
                 (PyStr "marker.services.ollama.OllamaService") (PyBool true)
                 (PyBool true) (PyBool true) (PyBool true)
                 (PyStr "pageMarkdown+chunks") (PyStr "./"))
              sample_http) as [Hok _].
  - reflexivity.
  - split; [discriminate|]. split; [reflexivity|]. split; [reflexivity|].
    left. reflexivity.
  - reflexivity.
  - reflexivity.
  - discriminate.
  - cbn. apply not_elem_of_empty.
  - eapply Hok. reflexivity.
Defined.

Lemma cleanup_refusal_keeps_response_witness :
  fs_files (snd (parse_pdf (env := steady_env) (net := good_network) 4
                   sample_request sticky_fs)) !! "/tmp/tmpq3x8.pdf"
  = Some [Byte.x25; Byte.x50; Byte.x44; Byte.x46] ∧
  fst (parse_pdf (env := steady_env) (net := good_network) 4
         sample_request sticky_fs)
  = Ok (mk_response
          (ErrorContent (exn_msg (UnboundLocalError "renderer"))) 500).
Proof.
  destruct (cleanup_refusal_keeps_response (env := steady_env)
              (net := good_network) 3 sample_request sticky_fs
              (mk_options (PyStr "http://ollama-keda.mobiusdtaas.ai")
                 (PyStr "llama3.2:latest") (PyBool false)
                 (PyStr "marker.services.ollama.OllamaService") (PyBool true)
                 (PyBool true) (PyBool true) (PyBool true)
                 (PyStr "pageMarkdown+chunks") (PyStr "./"))
              sample_http) as (Hfile & Hok & _).
  - reflexivity.
  - split; [discriminate|]. split; [reflexivity|]. split; [reflexivity|].
    left. reflexivity.
  - reflexivity.
  - reflexivity.
  - cbn. apply elem_of_singleton. reflexivity.
  - split; [exact Hfile|]. eapply Hok. reflexivity.
Defined.

Lemma broken_download_leaves_temp_file_witness :
  ∃ fs',
    parse_pdf (env := steady_env) (net := broken_network) 4 sample_request
      sample_fs
    = (Ok (mk_response (ErrorContent "Connection broken") 500), fs') ∧
    fs_files fs' !! "/tmp/tmpq3x8.pdf" = Some [Byte.x25; Byte.x50].
Proof.
  apply (broken_download_leaves_temp_file (env := steady_env)
           (net := broken_network) 4 sample_request sample_fs
           (mk_options (PyStr "http://ollama-keda.mobiusdtaas.ai")
              (PyStr "llama3.2:latest") (PyBool false)
              (PyStr "marker.services.ollama.OllamaService") (PyBool true)
              (PyBool true) (PyBool true) (PyBool true)
              (PyStr "pageMarkdown+chunks") (PyStr "./"))
           broken_stream
           (mk_exn "requests.exceptions.ChunkedEncodingError"
              "Connection broken")).
  - reflexivity.
  - split; [discriminate|]. split; [reflexivity|]. split; [reflexivity|].
    left. reflexivity.
  - reflexivity.
  - reflexivity.
Defined.

Lemma converter_config_keys_witness :
  converter_config
    (mk_options (PyStr "http://ollama-keda.mobiusdtaas.ai")
       (PyStr "llama3.2:latest") (PyBool false)
       (PyStr "marker.services.ollama.OllamaService") (PyBool true)
       (PyBool true) (PyBool true) (PyBool true)
       (PyStr "pageMarkdown+chunks") (PyStr "./")) !! "llm_service" = None ∧
  converter_config
    (mk_options (PyStr "http://ollama-keda.mobiusdtaas.ai")
       (PyStr "llama3.2:latest") (PyBool false)
       (PyStr "marker.services.ollama.OllamaService") (PyBool true)
       (PyBool true) (PyBool true) (PyBool true)
       (PyStr "pageMarkdown+chunks") (PyStr "./")) !! "renderer"
  = Some (PyStr "pageMarkdown+chunks").
Proof.
  destruct (converter_config_keys (net := good_network)
              {["llm_service" := PyStr "Ollama";
                "page_range" := PyList [PyInt 4]]}
              (mk_options (PyStr "http://ollama-keda.mobiusdtaas.ai")
                 (PyStr "llama3.2:latest") (PyBool false)
                 (PyStr "marker.services.ollama.OllamaService") (PyBool true)
                 (PyBool true) (PyBool true) (PyBool true)
                 (PyStr "pageMarkdown+chunks") (PyStr "./")))
    as (_ & Hother & Hrenderer & _).
  - reflexivity.
  - split.
    + apply Hother. intros H.
      repeat (apply elem_of_cons in H as [H|H]; [discriminate H|]).
      by apply elem_of_nil in H.
    + exact Hrenderer.
Defined.
